(** * BRET: the Bomb Risk Elicitation Task of [app.py]

    A shallow embedding of the Streamlit script [src/app.py] and the
    properties of its trial state machine.

    The script is executed from top to bottom once per user interaction.
    Everything that survives from one execution to the next lives in
    [st.session_state]; everything the participant sees is produced by the
    [st.subheader], [st.button] and [st.write] calls of that execution.
    The embedding therefore has three layers:

    - the session state and the two helpers that write it
      ([_reset_game], [_compute_payoff], [_ensure_state]);
    - the inline handlers of the sidebar and of the two buttons;
    - one whole execution of the script ([script_run]) together with the
      page it prints. *)

From Stdlib Require Import ZArith String Ascii List Bool Lia DecimalString.
From Stdlib Require DecimalPos DecimalZ.
Import ListNotations.

Local Open Scope string_scope.
Local Open Scope Z_scope.

(** ** Python values and formatting *)

(** The export dictionary mixes integers, strings and [None]. *)
Inductive pyval : Type :=
| PyInt (z : Z)
| PyStr (s : string)
| PyNone.

(** [str(z)] for a Python [int], as an f-string placeholder prints it. *)
Definition str (z : Z) : string := NilZero.string_of_int (Z.to_int z).

Definition of_opt_int (o : option Z) : pyval :=
  match o with
  | Some z => PyInt z
  | None => PyNone
  end.

Definition of_opt_str (o : option string) : pyval :=
  match o with
  | Some s => PyStr s
  | None => PyNone
  end.

(** [range(k)]: the integers [0 .. k-1], empty when [k <= 0]. *)
Definition range (k : Z) : list Z := map Z.of_nat (seq 0 (Z.to_nat k)).

(** ** The ambient clock and random generator *)

(** What [datetime.now()] returns, down to the second (the format string of
    [run_id] reads nothing finer). *)
Record datetime : Type := mk_datetime {
  year : Z;
  month : Z;
  day : Z;
  hour : Z;
  minute : Z;
  second : Z
}.

Definition digit (d : Z) : ascii := ascii_of_nat (48 + Z.to_nat (d mod 10)).

(** Zero-padded decimal fields of [strftime]: [%m %d %H %M %S] have two
    digits, [%Y] has four for the years a running clock reports. *)
Definition pad2 (v : Z) : string := String (digit (v / 10)) (String (digit v) "").

Definition pad4 (v : Z) : string :=
  String (digit (v / 1000)) (String (digit (v / 100)) (pad2 v)).

(** [t.strftime("%Y%m%d-%H%M%S")] *)
Definition strftime_run_id (t : datetime) : string :=
  pad4 (year t) ++ pad2 (month t) ++ pad2 (day t) ++ "-" ++
  pad2 (hour t) ++ pad2 (minute t) ++ pad2 (second t).

(** [random.randint(a, b)] returns some integer [N] with [a <= N <= b] and
    raises [ValueError] on an empty range.  The generator is made explicit
    as the raw number [raw] it supplies for this call; [None] stands for the
    exception. *)
Definition randint (raw a b : Z) : option Z :=
  if b <? a then None else Some (a + raw mod (b - a + 1)).

(** What one call of [_reset_game] takes from the outside world. *)
Record env : Type := mk_env {
  raw : Z;
  now : datetime
}.

(** ** Session state *)

Definition DEFAULT_N : Z := 100.
Definition DEFAULT_COLS : Z := 10.
Definition DEFAULT_PAYOFF_PER_BOX : Z := 10.

(** The attributes the script keeps in [st.session_state].  [_reset_game] is
    the only code that creates them and it creates all of them, so a session
    either has none ([None], a browser session that has not run the script
    yet) or all of them. *)
Record session_state : Type := mk_state {
  n : Z;
  cols : Z;
  payoff_per_box : Z;
  bomb_idx : Z;
  opened : Z;
  revealed : bool;
  payoff : option Z;
  outcome : option string;
  run_id : string
}.

Definition session : Type := option session_state.

Definition set_cols (v : Z) (s : session_state) : session_state :=
  mk_state (n s) v (payoff_per_box s) (bomb_idx s) (opened s) (revealed s)
           (payoff s) (outcome s) (run_id s).

Definition set_payoff_per_box (v : Z) (s : session_state) : session_state :=
  mk_state (n s) (cols s) v (bomb_idx s) (opened s) (revealed s)
           (payoff s) (outcome s) (run_id s).

Definition set_bomb_idx (v : Z) (s : session_state) : session_state :=
  mk_state (n s) (cols s) (payoff_per_box s) v (opened s) (revealed s)
           (payoff s) (outcome s) (run_id s).

Definition set_opened (v : Z) (s : session_state) : session_state :=
  mk_state (n s) (cols s) (payoff_per_box s) (bomb_idx s) v (revealed s)
           (payoff s) (outcome s) (run_id s).

Definition set_revealed (v : bool) (s : session_state) : session_state :=
  mk_state (n s) (cols s) (payoff_per_box s) (bomb_idx s) (opened s) v
           (payoff s) (outcome s) (run_id s).

Definition set_payoff (v : option Z) (s : session_state) : session_state :=
  mk_state (n s) (cols s) (payoff_per_box s) (bomb_idx s) (opened s) (revealed s)
           v (outcome s) (run_id s).

Definition set_outcome (v : option string) (s : session_state) : session_state :=
  mk_state (n s) (cols s) (payoff_per_box s) (bomb_idx s) (opened s) (revealed s)
           (payoff s) v (run_id s).

(** [st.session_state.get("payoff_per_box", DEFAULT_PAYOFF_PER_BOX)] *)
Definition get_payoff_per_box (ss : session) : Z :=
  match ss with
  | Some s => payoff_per_box s
  | None => DEFAULT_PAYOFF_PER_BOX
  end.

(** ** Helpers of the script *)

(** [_reset_game(n_boxes)], lines 16-26.  [None] is the [ValueError] of
    [random.randint] on an empty range. *)
Definition _reset_game (ss : session) (n_boxes : Z) (e : env) : option session_state :=
  match randint (raw e) 1 n_boxes with
  | None => None
  | Some b =>
      Some (mk_state n_boxes DEFAULT_COLS (get_payoff_per_box ss)
                     b 0 false None None (strftime_run_id (now e)))
  end.

(** [_compute_payoff()], lines 28-35. *)
Definition _compute_payoff (s : session_state) : session_state :=
  if bomb_idx s <=? opened s
  then set_payoff (Some 0) (set_outcome (Some "bombed") s)
  else set_payoff (Some (opened s * payoff_per_box s)) (set_outcome (Some "safe") s).

(** [_ensure_state()], lines 37-39. *)
Definition _ensure_state (ss : session) (e : env) : option session_state :=
  match ss with
  | None => _reset_game ss DEFAULT_N e
  | Some s => Some s
  end.

(** ** Handlers *)

(** [st.button(label, disabled=d)]: true in the execution that a click
    started, and never for a button drawn disabled.  [clicked] is the
    trigger the frontend delivers to the button this execution draws: a
    press counts only when it was made on that very button. *)
Definition button (clicked disabled : bool) : bool := clicked && negb disabled.

(** Sidebar, lines 47-49: the stored rate follows the number input. *)
Definition payoff_input (payoff_val : Z) (s : session_state) : session_state :=
  if negb (payoff_val =? payoff_per_box s)
  then set_payoff_per_box payoff_val s
  else s.

(** Sidebar, lines 56-58: "New Participant / New Game". *)
Definition new_game (n_val cols_val : Z) (e : env) (s : session_state)
  : option session_state :=
  match _reset_game (Some s) n_val e with
  | None => None
  | Some s' => Some (set_cols cols_val s')
  end.

(** Line 81. *)
Definition disabled_open (s : session_state) : bool :=
  revealed s || (opened s >=? n s).

(** Lines 82-87: "Open next box". *)
Definition open_next (clicked : bool) (s : session_state) : session_state :=
  if button clicked (disabled_open s)
  then set_opened (opened s + 1) s
  else s.

(** Line 91. *)
Definition disabled_stop (s : session_state) : bool :=
  revealed s || (opened s =? 0).

(** Lines 92-94: "Stop & Reveal". *)
Definition stop (clicked : bool) (s : session_state) : session_state :=
  if button clicked (disabled_stop s)
  then set_revealed true (_compute_payoff s)
  else s.

(** ** What the script prints *)

(** Line 61, in the sidebar. *)
Definition run_id_line (s : session_state) : string :=
  "Run ID: `" ++ run_id s ++ "`".

(** [outcome == "bombed"], where [outcome] may still be [None]. *)
Definition outcome_is (o : option string) (v : string) : bool :=
  match o with
  | Some x => String.eqb x v
  | None => false
  end.

(** How an f-string prints [payoff]. *)
Definition fmt_payoff (p : option Z) : string :=
  match p with
  | Some z => str z
  | None => "None"
  end.

(** The status line, lines 64-76. *)
Definition status_line (s : session_state) : string :=
  let status := "Boxes opened: **" ++ str (opened s) ++ " / " ++ str (n s) ++ "**" in
  if negb (revealed s) then status
  else if outcome_is (outcome s) "bombed"
  then "💥 Bomb was in box **" ++ str (bomb_idx s) ++ "** → **Payoff: 0**"
  else "✅ Safe! Bomb was in box **" ++ str (bomb_idx s) ++ "** → " ++
       "**Payoff: " ++ fmt_payoff (payoff s) ++ "** " ++
       "(" ++ str (opened s) ++ " × " ++ str (payoff_per_box s) ++ ")".

(** Line 83. *)
Definition open_button_label (s : session_state) : string :=
  "📦 Open next box (#" ++ str (opened s + 1) ++ ")".

Definition GREEN : string := "🟩".
Definition BOMB : string := "💣".
Definition BLANK : string := "◻️".

(** [_cell_label(i)], lines 122-140; [i] is the 1-based box index. *)
Definition _cell_label (s : session_state) (i : Z) : string :=
  let opened := opened s in
  let revealed := revealed s in
  let bomb := bomb_idx s in
  if revealed then
    if i =? bomb then BOMB
    else if (i <=? opened) && negb (i =? bomb) then GREEN
    else BLANK
  else
    if i <=? opened then GREEN
    else BLANK.

(** The grid, lines 119-154: the labels of the disabled cell buttons in the
    order they are drawn.  The sidebar keeps [cols] positive. *)
Definition grid (s : session_state) : list string :=
  let n := n s in
  let cols := cols s in
  let rows := (n + cols - 1) / cols in
  flat_map (fun r =>
    flat_map (fun c =>
      let i := r * cols + c + 1 in
      if i >? n then []
      else [_cell_label s i ++ " " ++ str i])
    (range cols))
  (range rows).

(** The dictionary of the "Session details / export" expander, lines 160-170,
    in the order of its keys. *)
Definition export_record (s : session_state) : list (string * pyval) :=
  [ ("run_id", PyStr (run_id s));
    ("n_boxes", PyInt (n s));
    ("opened", PyInt (opened s));
    ("bomb_index",
      if revealed s then PyInt (bomb_idx s) else PyStr "(hidden until reveal)");
    ("payoff_per_box", PyInt (payoff_per_box s));
    ("outcome",
      if revealed s then of_opt_str (outcome s) else PyStr "(not revealed)");
    ("payoff",
      if revealed s then of_opt_int (payoff s) else PyStr "(not revealed)") ].

(** Everything one execution shows that is computed from the session. *)
Record page : Type := mk_page {
  pg_run_id : string;
  pg_status : string;
  pg_open_label : string;
  pg_open_disabled : bool;
  pg_stop_disabled : bool;
  pg_grid : list string;
  pg_export : list (string * pyval)
}.

(** The page of an execution in which nothing is pressed. *)
Definition render (s : session_state) : page :=
  mk_page (run_id_line s) (status_line s) (open_button_label s)
          (disabled_open s) (disabled_stop s) (grid s) (export_record s).

(** ** One execution of the script *)

(** The values the widgets deliver to one execution, and what the clock and
    the generator deliver to the (at most two) calls of [_reset_game] in it.
    The three [_clicked] fields are the triggers that reach the three
    [st.button] calls of this execution. *)
Record inputs : Type := mk_inputs {
  payoff_val : Z;
  n_val : Z;
  cols_val : Z;
  new_game_clicked : bool;
  open_clicked : bool;
  stop_clicked : bool;
  env_init : env;
  env_new : env
}.

(** The ranges the three [st.number_input] calls enforce, lines 47-52. *)
Definition valid_inputs (w : inputs) : Prop :=
  1 <= payoff_val w /\ 10 <= n_val w <= 200 /\ 5 <= cols_val w <= 20.

(** [st.number_input(min_value=.., max_value=.., value=..)], lines 47, 51
    and 52: it raises when the [value] it is given lies below its minimum or
    above its maximum ([None]); otherwise it returns what the widget holds,
    [entered]. *)
Definition number_input (min_value : Z) (max_value : option Z)
    (value entered : Z) : option Z :=
  if value <? min_value then None
  else if match max_value with
          | Some m => value >? m
          | None => false
          end then None
  else Some entered.

(** Lines 42-170.  An exception of a number input ends the execution
    ([None]); what the session holds after a failed execution is not
    followed further.  [st.rerun()] abandons the execution and starts another in
    which no button is pressed; that one changes nothing and prints the page
    of the state reached.  Without a rerun the status line and the open
    button were already drawn when the open handler ran. *)
Definition script_run (w : inputs) (ss : session) : option (session_state * page) :=
  match _ensure_state ss (env_init w) with
  | None => None
  | Some s0 =>
      match number_input 1 None (payoff_per_box s0) (payoff_val w) with
      | None => None
      | Some pv =>
          let s1 := payoff_input pv s0 in
          match number_input 10 (Some 200) (n s1) (n_val w) with
          | None => None
          | Some nv =>
              match number_input 5 (Some 20) (cols s1) (cols_val w) with
              | None => None
              | Some cv =>
                  if button (new_game_clicked w) false then
                    match new_game nv cv (env_new w) s1 with
                    | None => None
                    | Some s2 => Some (s2, render s2)
                    end
                  else
                    let s2 := open_next (open_clicked w) s1 in
                    let s3 := stop (stop_clicked w) s2 in
                    if button (stop_clicked w) (disabled_stop s2)
                    then Some (s3, render s3)
                    else Some (s3, mk_page (run_id_line s1) (status_line s1)
                                           (open_button_label s1)
                                           (disabled_open s1)
                                           (disabled_stop s2) (grid s2)
                                           (export_record s2))
              end
          end
      end
  end.

(** Whether the three number inputs accept the values the session holds. *)
Definition widgets_accept (s : session_state) : bool :=
  (1 <=? payoff_per_box s) &&
  ((10 <=? n s) && (n s <=? 200)) &&
  ((5 <=? cols s) && (cols s <=? 20)).

(** The session after a series of executions. *)
Fixpoint script_runs (ws : list inputs) (ss : session) : option session :=
  match ws with
  | [] => Some ss
  | w :: ws' =>
      match script_run w ss with
      | None => None
      | Some (s, _) => script_runs ws' (Some s)
      end
  end.

(** ** The two participant actions as a state machine *)

Inductive action : Type :=
| OpenNext
| Stop.

Definition step (a : action) (s : session_state) : session_state :=
  match a with
  | OpenNext => open_next true s
  | Stop => stop true s
  end.

Definition steps (l : list action) (s : session_state) : session_state :=
  fold_left (fun st a => step a st) l s.

(** ** Sample sessions *)

(** A clock reading and a generator value that puts the bomb in box 5 of 10. *)
Definition sample_env : env := mk_env 4 (mk_datetime 2024 3 9 14 5 7).

(** The state [_reset_game(10)] leaves in a new browser session under
    [sample_env]. *)
Definition sample_start : session_state :=
  mk_state 10 10 10 5 0 false None None "20240309-140507".

(** [_reset_game(20)] under [sample_env] in a session that held a rate of
    25 and 7 grid columns. *)
Definition reset_again : session_state :=
  mk_state 20 10 25 5 0 false None None "20240309-140507".

(** The session [reset_again] was reset in: [sample_start] with a rate of 25
    and 7 grid columns. *)
Definition edited_start : session_state :=
  set_cols 7 (set_payoff_per_box 25 sample_start).

(** The clock one second after [sample_env], and [_reset_game(20)] in
    [edited_start] at that time. *)
Definition later_env : env := mk_env 4 (mk_datetime 2024 3 9 14 5 8).

Definition reset_later : session_state :=
  mk_state 20 10 25 5 0 false None None "20240309-140508".

(** Another draw of the generator within the second of [sample_env], and
    [_reset_game(20)] in the session [sample_start] with it. *)
Definition same_second_env : env := mk_env 17 (now sample_env).

Definition same_second_game : session_state :=
  mk_state 20 10 10 18 0 false None None "20240309-140507".

(** Two executions of one game: the participant opens a box, then edits the
    rate in the sidebar to 50 and stops. *)
Definition edit_then_stop : list inputs :=
  [ mk_inputs 10 10 10 false true false sample_env sample_env;
    mk_inputs 50 10 10 false false true sample_env sample_env ].

(** ** The render view of the specification *)

(** The script has no projection function of its own: it reads the session
    where it prints.  The specification describes one ([snapshot], section
    4.1) and defines the cell labels over it (section 6).  The next four
    definitions follow the specification's words and serve only to compare
    [_cell_label] with them. *)
Record RenderView : Type := mk_view {
  rv_opened : Z;
  rv_n : Z;
  rv_revealed : bool;
  rv_run_id : string;
  rv_bomb : option Z;
  rv_outcome : option (option string);
  rv_payoff : option (option Z)
}.

(** [None] in the last three fields is the "hidden" sentinel. *)
Definition spec_snapshot (s : session_state) : RenderView :=
  mk_view (opened s) (n s) (revealed s) (run_id s)
          (if revealed s then Some (bomb_idx s) else None)
          (if revealed s then Some (outcome s) else None)
          (if revealed s then Some (payoff s) else None).

Inductive cell_kind : Type :=
| CellOpened
| CellClosed
| CellBomb
| CellOpenedSafe.

Definition is_bomb (v : RenderView) (i : Z) : bool :=
  match rv_bomb v with
  | Some b => i =? b
  | None => false
  end.

Definition spec_cell_label (v : RenderView) (i : Z) : cell_kind :=
  if negb (rv_revealed v) then
    if i <=? rv_opened v then CellOpened else CellClosed
  else
    if is_bomb v i then CellBomb
    else if (i <=? rv_opened v) && negb (is_bomb v i) then CellOpenedSafe
    else CellClosed.

(** How the script draws each kind of cell (comment of lines 113-118). *)
Definition glyph (k : cell_kind) : string :=
  match k with
  | CellOpened => GREEN
  | CellOpenedSafe => GREEN
  | CellBomb => BOMB
  | CellClosed => BLANK
  end.

(** ** Relations used in the statements *)

(** Two states that agree on everything except the bomb position, the
    outcome and the payoff. *)
Definition same_public (s1 s2 : session_state) : Prop :=
  n s1 = n s2 /\ cols s1 = cols s2 /\ payoff_per_box s1 = payoff_per_box s2 /\
  opened s1 = opened s2 /\ revealed s1 = revealed s2 /\ run_id s1 = run_id s2.

(** Clock readings whose fields fit the widths of the [run_id] format. *)
Definition wf_datetime (t : datetime) : Prop :=
  0 <= year t < 10000 /\ 0 <= month t < 100 /\ 0 <= day t < 100 /\
  0 <= hour t < 100 /\ 0 <= minute t < 100 /\ 0 <= second t < 100.

(** Executions in which "New Participant / New Game" is not pressed. *)
Definition same_game (w : inputs) : Prop := new_game_clicked w = false.

(** The states the script can be in, starting from a new browser session. *)
Definition reachable (s : session_state) : Prop :=
  exists ws, Forall valid_inputs ws /\ script_runs ws None = Some (Some s).

(** ** The invariant of the game *)

Definition game_inv (s : session_state) : Prop :=
  10 <= n s <= 200 /\ 5 <= cols s <= 20 /\ 1 <= payoff_per_box s /\
  1 <= bomb_idx s <= n s /\ 0 <= opened s <= n s /\
  (revealed s = false -> outcome s = None /\ payoff s = None) /\
  (revealed s = true ->
     1 <= opened s /\
     ((bomb_idx s <= opened s /\
       outcome s = Some "bombed" /\ payoff s = Some 0) \/
      (opened s < bomb_idx s /\
       outcome s = Some "safe" /\
       exists rate, 1 <= rate /\ payoff s = Some (opened s * rate)))).

(** ** Notions used for the grid and for series of executions *)

(** The box indices [1 .. k]. *)
Definition boxes (k : Z) : list Z := map (fun j => j + 1) (range k).

(** The text on the cell button of box [i], line 150. *)
Definition cell_text (s : session_state) (i : Z) : string :=
  _cell_label s i ++ " " ++ str i.

(** Whether the text of a cell starts with the glyph [g]. *)
Definition shows (g : string) (cell : string) : bool := String.prefix g cell.

(** The state reached and the page printed by each of a series of
    executions. *)
Fixpoint script_trace (ws : list inputs) (ss : session)
  : option (list (session_state * page)) :=
  match ws with
  | [] => Some []
  | w :: ws' =>
      match script_run w ss with
      | None => None
      | Some (s, p) =>
          match script_trace ws' (Some s) with
          | None => None
          | Some tr => Some ((s, p) :: tr)
          end
      end
  end.

(** The open button has no [key], so the widget a press belongs to is
    told by its label, and the label carries [opened + 1] (line 83).  A
    press on the open button of the page [on_screen] reaches the
    [st.button] call of the next execution only if that execution, starting
    from [s], draws the button under the same label. *)
Definition open_press_delivered (on_screen : page) (s : session_state) : bool :=
  String.eqb (pg_open_label on_screen) (open_button_label s).

(** No value of a dictionary is [None]. *)
Definition no_none (d : list (string * pyval)) : Prop :=
  forall k, ~ In (k, PyNone) d.

(** One new game of ten boxes with the bomb in box 5, then ten opens. *)
Definition open_all_ten : list inputs :=
  (mk_inputs 10 10 10 true false false sample_env sample_env ::
   repeat (mk_inputs 10 10 10 false true false sample_env sample_env) 10)%list.

(** The formatting and drawing functions are computed only on request. *)
Arguments digit : simpl never.
Arguments str : simpl never.
Arguments strftime_run_id : simpl never.
Arguments randint : simpl never.

(** * Properties *)

(** ** Basic facts about the primitives *)

Lemma randint_range (r a b x : Z) :
  randint r a b = Some x -> a <= x <= b.
Proof.
  unfold randint. destruct (Z.ltb_spec b a) as [Hlt | Hle]; [discriminate |].
  intros H. injection H as <-.
  pose proof (Z.mod_pos_bound r (b - a + 1)). lia.
Qed.

Lemma randint_total (r a b : Z) :
  a <= b -> exists x, randint r a b = Some x.
Proof.
  intros Hab. unfold randint.
  destruct (Z.ltb_spec b a); [lia | eauto].
Qed.

(** Every box can hold the bomb. *)
Lemma randint_onto (a b x : Z) :
  a <= x <= b -> randint (x - a) a b = Some x.
Proof.
  intros Hx. unfold randint.
  destruct (Z.ltb_spec b a); [lia |].
  rewrite Z.mod_small by lia. f_equal. lia.
Qed.

Lemma reset_sample : _reset_game None 10 sample_env = Some sample_start.
Proof. reflexivity. Qed.

Lemma button_disabled (c : bool) : button c true = false.
Proof. destruct c; reflexivity. Qed.

Lemma button_unclicked (d : bool) : button false d = false.
Proof. reflexivity. Qed.

Lemma disabled_open_revealed (s : session_state) :
  revealed s = true -> disabled_open s = true.
Proof. unfold disabled_open. intros ->. reflexivity. Qed.

Lemma disabled_stop_revealed (s : session_state) :
  revealed s = true -> disabled_stop s = true.
Proof. unfold disabled_stop. intros ->. reflexivity. Qed.

Lemma disabled_open_false (s : session_state) :
  disabled_open s = false <-> revealed s = false /\ opened s < n s.
Proof.
  unfold disabled_open. rewrite orb_false_iff, Z.geb_leb, Z.leb_gt. tauto.
Qed.

Lemma disabled_stop_false (s : session_state) :
  disabled_stop s = false <-> revealed s = false /\ opened s <> 0.
Proof.
  unfold disabled_stop. rewrite orb_false_iff, Z.eqb_neq. tauto.
Qed.

Lemma open_next_revealed (c : bool) (s : session_state) :
  revealed s = true -> open_next c s = s.
Proof.
  intros H. unfold open_next.
  rewrite (disabled_open_revealed s H), button_disabled. reflexivity.
Qed.

Lemma stop_revealed (c : bool) (s : session_state) :
  revealed s = true -> stop c s = s.
Proof.
  intros H. unfold stop.
  rewrite (disabled_stop_revealed s H), button_disabled. reflexivity.
Qed.

Lemma open_next_fires (s : session_state) :
  revealed s = false -> opened s < n s ->
  open_next true s = set_opened (opened s + 1) s.
Proof.
  intros Hr Ho. unfold open_next.
  assert (disabled_open s = false) as -> by (apply disabled_open_false; auto).
  reflexivity.
Qed.

Lemma open_next_full (c : bool) (s : session_state) :
  n s <= opened s -> open_next c s = s.
Proof.
  intros H. unfold open_next, disabled_open.
  assert ((opened s >=? n s) = true) as ->
    by (rewrite Z.geb_leb; apply Z.leb_le; exact H).
  rewrite orb_true_r, button_disabled. reflexivity.
Qed.

Lemma stop_fires (s : session_state) :
  revealed s = false -> opened s <> 0 ->
  stop true s = set_revealed true (_compute_payoff s).
Proof.
  intros Hr Ho. unfold stop.
  assert (disabled_stop s = false) as -> by (apply disabled_stop_false; auto).
  reflexivity.
Qed.

Lemma stop_nothing_opened (c : bool) (s : session_state) :
  opened s = 0 -> stop c s = s.
Proof.
  intros H. unfold stop, disabled_stop. rewrite H.
  rewrite orb_true_r, button_disabled. reflexivity.
Qed.

(** What the two handlers never write. *)
Lemma open_next_frame (c : bool) (s : session_state) :
  n (open_next c s) = n s /\ cols (open_next c s) = cols s /\
  payoff_per_box (open_next c s) = payoff_per_box s /\
  bomb_idx (open_next c s) = bomb_idx s /\
  revealed (open_next c s) = revealed s /\
  payoff (open_next c s) = payoff s /\ outcome (open_next c s) = outcome s /\
  run_id (open_next c s) = run_id s.
Proof.
  unfold open_next. destruct (button c (disabled_open s)); cbn; auto 10.
Qed.

Lemma stop_frame (c : bool) (s : session_state) :
  n (stop c s) = n s /\ cols (stop c s) = cols s /\
  payoff_per_box (stop c s) = payoff_per_box s /\
  bomb_idx (stop c s) = bomb_idx s /\ opened (stop c s) = opened s /\
  run_id (stop c s) = run_id s.
Proof.
  unfold stop, _compute_payoff.
  destruct (button c (disabled_stop s)); [| auto 10].
  destruct (bomb_idx s <=? opened s); cbn; auto 10.
Qed.

Lemma step_revealed (a : action) (s : session_state) :
  revealed s = true -> step a s = s.
Proof.
  destruct a; cbn; [apply open_next_revealed | apply stop_revealed].
Qed.

Lemma steps_revealed (l : list action) (s : session_state) :
  revealed s = true -> steps l s = s.
Proof.
  unfold steps. induction l as [| a l IH]; cbn; intros H; [reflexivity |].
  rewrite (step_revealed a s H). apply IH, H.
Qed.

Lemma steps_cons (a : action) (l : list action) (s : session_state) :
  steps (a :: l) s = steps l (step a s).
Proof. reflexivity. Qed.

Lemma payoff_input_rate (v : Z) (s : session_state) :
  payoff_per_box (payoff_input v s) = v.
Proof.
  unfold payoff_input. destruct (Z.eqb_spec v (payoff_per_box s)); cbn; auto.
Qed.

Lemma payoff_input_same (s : session_state) :
  payoff_input (payoff_per_box s) s = s.
Proof. unfold payoff_input. rewrite Z.eqb_refl. reflexivity. Qed.

Lemma payoff_input_frame (v : Z) (s : session_state) :
  n (payoff_input v s) = n s /\ cols (payoff_input v s) = cols s /\
  bomb_idx (payoff_input v s) = bomb_idx s /\
  opened (payoff_input v s) = opened s /\
  revealed (payoff_input v s) = revealed s /\
  payoff (payoff_input v s) = payoff s /\
  outcome (payoff_input v s) = outcome s /\
  run_id (payoff_input v s) = run_id s.
Proof.
  unfold payoff_input. destruct (negb (v =? payoff_per_box s)); cbn; auto 10.
Qed.

Lemma compute_payoff_cases (s : session_state) :
  (bomb_idx s <= opened s /\
   _compute_payoff s = set_payoff (Some 0) (set_outcome (Some "bombed") s)) \/
  (opened s < bomb_idx s /\
   _compute_payoff s =
     set_payoff (Some (opened s * payoff_per_box s))
                (set_outcome (Some "safe") s)).
Proof.
  unfold _compute_payoff.
  destruct (Z.leb_spec (bomb_idx s) (opened s)); [left | right]; auto.
Qed.

Lemma number_input_some (lo : Z) (hi : option Z) (v e : Z) :
  number_input lo hi v e
  = if (lo <=? v) && match hi with
                     | Some m => v <=? m
                     | None => true
                     end
    then Some e else None.
Proof.
  unfold number_input.
  destruct (Z.ltb_spec v lo), (Z.leb_spec lo v); try lia; cbn [andb];
    [reflexivity |].
  destruct hi as [m |]; [| reflexivity].
  destruct (Z.gtb_spec v m), (Z.leb_spec v m); try lia; reflexivity.
Qed.

(** An execution goes past the sidebar exactly when the number inputs accept
    the values the session holds. *)
Lemma script_run_unfold (w : inputs) (ss : session) :
  script_run w ss =
  match _ensure_state ss (env_init w) with
  | None => None
  | Some s0 =>
      if widgets_accept s0 then
        let s1 := payoff_input (payoff_val w) s0 in
        if button (new_game_clicked w) false then
          match new_game (n_val w) (cols_val w) (env_new w) s1 with
          | None => None
          | Some s2 => Some (s2, render s2)
          end
        else
          let s2 := open_next (open_clicked w) s1 in
          let s3 := stop (stop_clicked w) s2 in
          if button (stop_clicked w) (disabled_stop s2) then Some (s3, render s3)
          else Some (s3, mk_page (run_id_line s1) (status_line s1)
                                 (open_button_label s1) (disabled_open s1)
                                 (disabled_stop s2) (grid s2) (export_record s2))
      else None
  end.
Proof.
  unfold script_run, widgets_accept.
  destruct (_ensure_state ss (env_init w)) as [s0 |]; [| reflexivity].
  destruct (payoff_input_frame (payoff_val w) s0) as (Hn & Hc & _).
  rewrite number_input_some.
  destruct (1 <=? payoff_per_box s0); cbn [andb]; [| reflexivity].
  cbv zeta. rewrite number_input_some, Hn.
  destruct ((10 <=? n s0) && (n s0 <=? 200)); cbn [andb]; [| reflexivity].
  rewrite number_input_some, Hc.
  destruct ((5 <=? cols s0) && (cols s0 <=? 20)); reflexivity.
Qed.

Lemma widgets_accept_iff (s : session_state) :
  widgets_accept s = true <->
  1 <= payoff_per_box s /\ 10 <= n s <= 200 /\ 5 <= cols s <= 20.
Proof.
  unfold widgets_accept. rewrite !andb_true_iff, !Z.leb_le. tauto.
Qed.

Lemma script_run_some (w : inputs) (s : session_state)
    (r : session_state * page) :
  script_run w (Some s) = Some r -> widgets_accept s = true.
Proof.
  rewrite script_run_unfold. cbn [_ensure_state].
  destruct (widgets_accept s); [reflexivity | discriminate].
Qed.

(** An execution without "New Game" is the sidebar update followed by the
    two button handlers. *)
Lemma script_run_same_game (w : inputs) (s s' : session_state) (p : page) :
  same_game w ->
  script_run w (Some s) = Some (s', p) ->
  s' = stop (stop_clicked w)
         (open_next (open_clicked w) (payoff_input (payoff_val w) s)).
Proof.
  intros Hw H. red in Hw. rewrite script_run_unfold in H.
  cbn [_ensure_state] in H.
  destruct (widgets_accept s); [| discriminate]. cbv zeta in H.
  rewrite Hw in H. cbn [button andb] in H.
  destruct (button (stop_clicked w) _); injection H as <- _; reflexivity.
Qed.

(** ** The opened count *)

Lemma step_opened (a : action) (s : session_state) :
  opened s <= n s ->
  n (step a s) = n s /\
  opened s <= opened (step a s) <= n s.
Proof.
  intros Hle. destruct a; cbn.
  - unfold open_next. destruct (button true (disabled_open s)) eqn:Hb; [| lia].
    cbn in Hb. apply negb_true_iff, disabled_open_false in Hb. cbn. lia.
  - destruct (stop_frame true s) as (Hn & _ & _ & _ & Ho & _).
    rewrite Hn, Ho. lia.
Qed.

Lemma steps_opened (l : list action) (s : session_state) :
  opened s <= n s ->
  n (steps l s) = n s /\
  opened s <= opened (steps l s) <= n s.
Proof.
  revert s. induction l as [| a l IH]; intros s Hle.
  - cbn. lia.
  - rewrite steps_cons.
    destruct (step_opened a s Hle) as (Hn & Ho).
    destruct (IH (step a s)) as (Hn' & Ho'); [lia |].
    rewrite Hn' , Hn. split; [reflexivity | lia].
Qed.

Lemma open_next_repeat (k : nat) (s : session_state) :
  revealed s = false -> opened s <= n s ->
  opened (steps (repeat OpenNext k) s) = Z.min (opened s + Z.of_nat k) (n s).
Proof.
  revert s. induction k as [| k IH]; intros s Hr Hle.
  - cbn. lia.
  - cbn [repeat]. rewrite steps_cons. cbn [step].
    destruct (Z.lt_ge_cases (opened s) (n s)) as [Hlt | Hge].
    + rewrite (open_next_fires s Hr Hlt).
      rewrite IH; cbn; [lia | assumption | lia].
    + rewrite (open_next_full true s Hge).
      rewrite IH by assumption. lia.
Qed.

(** ** Claims about the two actions *)

(** C1.  A stop carried out while nothing is revealed and at least one box
    is open reveals the game, leaves the opened count and the bomb where
    they were, and settles the game by the position of the bomb: a
    bomb among the opened boxes gives outcome "bombed" and payoff 0, a bomb
    beyond them gives outcome "safe" and payoff opened * payoff_per_box. *)
Theorem stop_settles_payoff (s : session_state) :
  revealed s = false ->
  1 <= opened s ->
  revealed (stop true s) = true /\
  opened (stop true s) = opened s /\
  bomb_idx (stop true s) = bomb_idx s /\
  (bomb_idx s <= opened s ->
     outcome (stop true s) = Some "bombed" /\ payoff (stop true s) = Some 0) /\
  (bomb_idx s > opened s ->
     outcome (stop true s) = Some "safe" /\
     payoff (stop true s) = Some (opened s * payoff_per_box s)).
Proof.
  intros Hr Ho. rewrite stop_fires by (assumption || lia).
  unfold _compute_payoff.
  destruct (Z.leb_spec (bomb_idx s) (opened s)) as [Hb | Hb]; cbn;
    repeat split; intros; try reflexivity; lia.
Qed.

Lemma stop_settles_payoff_witness :
  outcome (stop true (steps (repeat OpenNext 4) sample_start)) = Some "safe" /\
  payoff (stop true (steps (repeat OpenNext 4) sample_start)) = Some 40.
Proof.
  apply (stop_settles_payoff (steps (repeat OpenNext 4) sample_start));
    [reflexivity | cbn; lia | cbn; lia].
Defined.

(** C3.  A revealed game is terminal.  Both handlers leave a revealed state
    exactly as it is, so does every series of open and stop actions, and an
    execution of the whole script in which "New Game" is not pressed ends
    revealed again with the opened count, outcome and payoff it started
    with (the only attribute it may write is the rate the sidebar holds). *)
Theorem revealed_is_terminal (s : session_state) :
  revealed s = true ->
  (forall c, open_next c s = s) /\
  (forall c, stop c s = s) /\
  (forall l, steps l s = s) /\
  (forall w s' p,
     same_game w ->
     script_run w (Some s) = Some (s', p) ->
     s' = payoff_input (payoff_val w) s /\
     revealed s' = true /\ opened s' = opened s /\
     outcome s' = outcome s /\ payoff s' = payoff s).
Proof.
  intros Hr.
  split; [intros c; apply open_next_revealed, Hr |].
  split; [intros c; apply stop_revealed, Hr |].
  split; [intros l; apply steps_revealed, Hr |].
  intros w s' p Hw Hrun.
  assert (Hr1 : revealed (payoff_input (payoff_val w) s) = true).
  { unfold payoff_input.
    destruct (negb (payoff_val w =? payoff_per_box s)); cbn; exact Hr. }
  rewrite script_run_unfold in Hrun. cbn [_ensure_state] in Hrun.
  destruct (widgets_accept s); [| discriminate]. cbv zeta in Hrun.
  red in Hw. rewrite Hw in Hrun. cbn [button andb] in Hrun.
  rewrite (open_next_revealed _ _ Hr1) in Hrun.
  rewrite (stop_revealed _ _ Hr1) in Hrun.
  rewrite (disabled_stop_revealed _ Hr1), button_disabled in Hrun.
  injection Hrun as <- _.
  split; [reflexivity |]. split; [exact Hr1 |].
  unfold payoff_input.
  destruct (negb (payoff_val w =? payoff_per_box s)); cbn; auto.
Qed.

Lemma revealed_is_terminal_witness :
  steps [OpenNext; Stop; OpenNext]
        (mk_state 10 10 10 5 4 true (Some 40) (Some "safe") "20240309-140507")
  = mk_state 10 10 10 5 4 true (Some 40) (Some "safe") "20240309-140507".
Proof.
  apply (revealed_is_terminal
           (mk_state 10 10 10 5 4 true (Some 40) (Some "safe") "20240309-140507")).
  reflexivity.
Defined.

(** C6.  From a state whose opened count is within the number of boxes (as
    it is after every reset), an open that meets its precondition adds
    exactly one to the opened count, [k] opens in a row add [k] up to the
    number of boxes, no series of open and stop actions lowers the count or
    takes it past the number of boxes, and once revealed it stays put. *)
Theorem opened_count_progress (s : session_state) :
  opened s <= n s ->
  (revealed s = false -> opened s < n s ->
     opened (open_next true s) = opened s + 1) /\
  (forall k, revealed s = false ->
     opened (steps (repeat OpenNext k) s) = Z.min (opened s + Z.of_nat k) (n s)) /\
  (forall l, opened s <= opened (steps l s) <= n (steps l s)) /\
  (forall l, revealed s = true -> opened (steps l s) = opened s).
Proof.
  intros Hle. repeat split.
  - intros Hr Hlt. rewrite open_next_fires by assumption. reflexivity.
  - intros k Hr. apply open_next_repeat; assumption.
  - destruct (steps_opened l s Hle) as (_ & H). lia.
  - destruct (steps_opened l s Hle) as (Hn & H). lia.
  - intros l Hr. rewrite steps_revealed by assumption. reflexivity.
Qed.

Lemma opened_count_progress_witness :
  opened (open_next true sample_start) = 1 /\
  opened (steps (repeat OpenNext 12) sample_start) = 10.
Proof.
  destruct (opened_count_progress sample_start) as (H1 & Hk & _);
    [cbn; lia |].
  split.
  - apply H1; [reflexivity | cbn; lia].
  - apply (Hk 12%nat). reflexivity.
Defined.

(** C7.  With no box opened the stop button is disabled: pressing it leaves
    the whole state as it was, so a game that is not revealed stays so, with
    no outcome and no payoff; an execution of the script in which only the
    stop button is pressed ends in the state it started from. *)
Theorem stop_rejected_when_nothing_opened (s : session_state) :
  opened s = 0 ->
  (forall c, stop c s = s) /\
  step Stop s = s /\
  (revealed s = false -> revealed (stop true s) = false) /\
  (outcome s = None -> outcome (stop true s) = None) /\
  (payoff s = None -> payoff (stop true s) = None) /\
  (forall w s' p,
     same_game w -> open_clicked w = false ->
     payoff_val w = payoff_per_box s ->
     script_run w (Some s) = Some (s', p) -> s' = s).
Proof.
  intros H0.
  split; [intros c; apply stop_nothing_opened, H0 |].
  split; [apply stop_nothing_opened, H0 |].
  split; [intros H; rewrite stop_nothing_opened; assumption |].
  split; [intros H; rewrite stop_nothing_opened; assumption |].
  split; [intros H; rewrite stop_nothing_opened; assumption |].
  intros w s' p Hw Hopen Hval Hrun.
  rewrite (script_run_same_game w s s' p Hw Hrun).
  rewrite Hopen, Hval, payoff_input_same.
  unfold open_next. rewrite button_unclicked.
  apply stop_nothing_opened, H0.
Qed.

Lemma stop_rejected_when_nothing_opened_witness :
  stop true sample_start = sample_start.
Proof.
  apply (stop_rejected_when_nothing_opened sample_start). reflexivity.
Defined.

(** ** Claims about what is shown *)

Lemma cell_label_hidden (s : session_state) (i : Z) :
  revealed s = false ->
  _cell_label s i = if i <=? opened s then GREEN else BLANK.
Proof. unfold _cell_label. intros ->. reflexivity. Qed.

Lemma grid_ext (s1 s2 : session_state) :
  n s1 = n s2 -> cols s1 = cols s2 ->
  (forall i, _cell_label s1 i = _cell_label s2 i) ->
  grid s1 = grid s2.
Proof.
  intros Hn Hc Hl. unfold grid. rewrite Hn, Hc.
  apply flat_map_ext. intros r. apply flat_map_ext. intros c.
  rewrite Hl. reflexivity.
Qed.

Lemma same_public_set_bomb_idx (b : Z) (s : session_state) :
  same_public s (set_bomb_idx b s).
Proof. unfold same_public. cbn. auto 10. Qed.

Lemma cell_label_same_public (s1 s2 : session_state) (i : Z) :
  revealed s1 = false -> same_public s1 s2 ->
  _cell_label s1 i = _cell_label s2 i.
Proof.
  intros Hr (_ & _ & _ & Ho & Hrv & _).
  rewrite !cell_label_hidden by congruence. rewrite Ho. reflexivity.
Qed.

Lemma render_same_public (s1 s2 : session_state) :
  revealed s1 = false -> same_public s1 s2 -> render s1 = render s2.
Proof.
  intros Hr Hp.
  pose proof (grid_ext s1 s2) as Hg.
  pose proof (fun i => cell_label_same_public s1 s2 i Hr Hp) as Hl.
  destruct Hp as (Hn & Hc & Hp & Ho & Hrv & Hid).
  specialize (Hg Hn Hc Hl).
  unfold render, run_id_line, status_line, open_button_label,
    disabled_open, disabled_stop, export_record.
  rewrite Hg, <- Hrv, Hr, <- Hn, <- Hp, <- Ho, <- Hid. reflexivity.
Qed.

Lemma same_public_refl (s : session_state) : same_public s s.
Proof. unfold same_public. auto 10. Qed.

Lemma same_public_payoff_input (v : Z) (s1 s2 : session_state) :
  same_public s1 s2 -> same_public (payoff_input v s1) (payoff_input v s2).
Proof.
  intros (Hn & Hc & Hp & Ho & Hr & Hid). unfold payoff_input. rewrite Hp.
  destruct (negb (v =? payoff_per_box s2));
    unfold same_public; cbn; auto 10.
Qed.

Lemma same_public_open_next (c : bool) (s1 s2 : session_state) :
  same_public s1 s2 -> same_public (open_next c s1) (open_next c s2).
Proof.
  intros (Hn & Hc & Hp & Ho & Hr & Hid). unfold open_next, disabled_open.
  rewrite Hn, Ho, Hr.
  destruct (button c (revealed s2 || (opened s2 >=? n s2)));
    unfold same_public; cbn; auto 10.
Qed.

Lemma same_public_stop (c : bool) (s1 s2 : session_state) :
  same_public s1 s2 -> same_public (stop c s1) (stop c s2).
Proof.
  intros (Hn & Hc & Hp & Ho & Hr & Hid). unfold stop, disabled_stop.
  rewrite Ho, Hr.
  destruct (button c (revealed s2 || (opened s2 =? 0)));
    [| unfold same_public; auto 10].
  destruct (compute_payoff_cases s1) as [(_ & ->) | (_ & ->)];
    destruct (compute_payoff_cases s2) as [(_ & ->) | (_ & ->)];
    unfold same_public; cbn; auto 10.
Qed.

(** The same holds along the executions of the script: two sessions that
    differ at most in the hidden attributes go through the same pages until
    one of them is revealed. *)
Lemma script_run_hides_bomb (w : inputs) (s1 s2 s1' s2' : session_state)
    (p1 p2 : page) :
  revealed s1 = false ->
  same_public s1 s2 ->
  script_run w (Some s1) = Some (s1', p1) ->
  script_run w (Some s2) = Some (s2', p2) ->
  same_public s1' s2' /\ (revealed s1' = false -> p1 = p2).
Proof.
  intros Hr Hp H1 H2. rewrite script_run_unfold in H1, H2.
  cbn [_ensure_state] in H1, H2.
  destruct (widgets_accept s1); [| discriminate].
  destruct (widgets_accept s2); [| discriminate].
  cbv zeta in H1, H2.
  pose proof (same_public_payoff_input (payoff_val w) s1 s2 Hp) as Hq.
  assert (Hrq : revealed (payoff_input (payoff_val w) s1) = false).
  { destruct (payoff_input_frame (payoff_val w) s1)
      as (_ & _ & _ & _ & -> & _). exact Hr. }
  set (t1 := payoff_input (payoff_val w) s1) in *.
  set (t2 := payoff_input (payoff_val w) s2) in *.
  destruct (button (new_game_clicked w) false).
  - unfold new_game, _reset_game in H1, H2.
    assert (Hrate : get_payoff_per_box (Some t1) = get_payoff_per_box (Some t2))
      by (cbn; apply Hq).
    rewrite Hrate in H1.
    destruct (randint (raw (env_new w)) 1 (n_val w)); [| discriminate].
    injection H1 as <- <-. injection H2 as <- <-.
    split; [apply same_public_refl | reflexivity].
  - pose proof (same_public_open_next (open_clicked w) t1 t2 Hq) as Hu.
    set (u1 := open_next (open_clicked w) t1) in *.
    set (u2 := open_next (open_clicked w) t2) in *.
    assert (Hru : revealed u1 = false).
    { subst u1. destruct (open_next_frame (open_clicked w) t1)
        as (_ & _ & _ & _ & -> & _). exact Hrq. }
    pose proof (same_public_stop (stop_clicked w) u1 u2 Hu) as Hs.
    assert (Hd : disabled_stop u1 = disabled_stop u2).
    { unfold disabled_stop. destruct Hu as (_ & _ & _ & -> & -> & _).
      reflexivity. }
    rewrite <- Hd in H2.
    destruct (button (stop_clicked w) (disabled_stop u1)) eqn:Hb.
    + injection H1 as <- <-. injection H2 as <- <-.
      split; [exact Hs |].
      unfold stop. rewrite Hb. cbn. discriminate.
    + injection H1 as <- <-. injection H2 as <- <-.
      split; [exact Hs |]. intros _.
      pose proof (render_same_public t1 t2 Hrq Hq) as Et.
      pose proof (render_same_public u1 u2 Hru Hu) as Eu.
      f_equal;
        first [ exact (f_equal pg_run_id Et) | exact (f_equal pg_status Et)
              | exact (f_equal pg_open_label Et)
              | exact (f_equal pg_open_disabled Et)
              | exact (f_equal pg_grid Eu) | exact (f_equal pg_export Eu) ].
Qed.

(** C2.  While the game is not revealed nothing that is shown depends on the
    bomb position, the outcome or the payoff: two sessions that differ at
    most in these three attributes have the same status line, the same label
    for every cell, the same export record and the same whole page, and the
    export record carries the fixed placeholders in their place.  In
    particular the view is the same for every position of the bomb, and
    after any execution of the script the two sessions still differ at most
    in the hidden attributes and, unless that execution revealed the game,
    have printed the same page. *)
Theorem pre_reveal_view_hides_bomb (s1 s2 : session_state) :
  revealed s1 = false ->
  same_public s1 s2 ->
  status_line s1 = status_line s2 /\
  (forall i, _cell_label s1 i = _cell_label s2 i) /\
  export_record s1 = export_record s2 /\
  render s1 = render s2 /\
  In ("bomb_index", PyStr "(hidden until reveal)") (export_record s1) /\
  In ("outcome", PyStr "(not revealed)") (export_record s1) /\
  In ("payoff", PyStr "(not revealed)") (export_record s1) /\
  (forall b, render (set_bomb_idx b s1) = render s1) /\
  (forall w s1' p1 s2' p2,
     script_run w (Some s1) = Some (s1', p1) ->
     script_run w (Some s2) = Some (s2', p2) ->
     same_public s1' s2' /\ (revealed s1' = false -> p1 = p2)).
Proof.
  intros Hr Hp.
  pose proof (render_same_public s1 s2 Hr Hp) as Hrender.
  split; [exact (f_equal pg_status Hrender) |].
  split; [intros i; apply cell_label_same_public; assumption |].
  split; [exact (f_equal pg_export Hrender) |].
  split; [exact Hrender |].
  unfold export_record. rewrite Hr. cbn [In].
  split; [auto 10 |]. split; [auto 10 |]. split; [auto 10 |].
  split.
  - intros b. symmetry. apply render_same_public;
      [exact Hr | apply same_public_set_bomb_idx].
  - intros w s1' p1 s2' p2. apply script_run_hides_bomb; assumption.
Qed.

Lemma pre_reveal_view_hides_bomb_witness :
  render (steps (repeat OpenNext 6) sample_start)
  = render (set_bomb_idx 9 (steps (repeat OpenNext 6) sample_start)).
Proof.
  apply (pre_reveal_view_hides_bomb
           (steps (repeat OpenNext 6) sample_start)
           (set_bomb_idx 9 (steps (repeat OpenNext 6) sample_start)));
    [reflexivity | cbn; repeat split].
Defined.

(** C8.  The label of a cell is the drawing of the label the specification
    defines over the render view.  Before the reveal a cell is green when
    its index is at most the opened count and blank otherwise; after it the
    cell of the bomb shows the bomb, any other cell up to the opened count
    is green and the rest are blank.  The label is a function of the opened
    count, the revealed flag and (only once revealed) the bomb position. *)
Theorem cell_label_spec (s : session_state) (i : Z) :
  _cell_label s i = glyph (spec_cell_label (spec_snapshot s) i) /\
  (revealed s = false -> i <= opened s -> _cell_label s i = GREEN) /\
  (revealed s = false -> opened s < i -> _cell_label s i = BLANK) /\
  (revealed s = true -> i = bomb_idx s -> _cell_label s i = BOMB) /\
  (revealed s = true -> i <= opened s -> i <> bomb_idx s ->
     _cell_label s i = GREEN) /\
  (revealed s = true -> opened s < i -> i <> bomb_idx s ->
     _cell_label s i = BLANK) /\
  (forall s',
     opened s' = opened s -> revealed s' = revealed s ->
     (revealed s = true -> bomb_idx s' = bomb_idx s) ->
     _cell_label s' i = _cell_label s i).
Proof.
  split.
  { unfold _cell_label, spec_cell_label, spec_snapshot, is_bomb.
    destruct (revealed s); cbn.
    - destruct (i =? bomb_idx s); [reflexivity |].
      destruct (i <=? opened s); reflexivity.
    - destruct (i <=? opened s); reflexivity. }
  unfold _cell_label.
  repeat split.
  - intros -> Hi. destruct (Z.leb_spec i (opened s)); [reflexivity | lia].
  - intros -> Hi. destruct (Z.leb_spec i (opened s)); [lia | reflexivity].
  - intros -> Hi. destruct (Z.eqb_spec i (bomb_idx s)); [reflexivity | lia].
  - intros -> Hi Hb. destruct (Z.eqb_spec i (bomb_idx s)); [lia |].
    destruct (Z.leb_spec i (opened s)); [reflexivity | lia].
  - intros -> Hi Hb. destruct (Z.eqb_spec i (bomb_idx s)); [lia |].
    destruct (Z.leb_spec i (opened s)); [lia | reflexivity].
  - intros s' Ho Hr Hb. rewrite Ho, Hr.
    destruct (revealed s); [rewrite Hb by reflexivity |]; reflexivity.
Qed.

(** ** Claims about a reset *)

Lemma digit_inj (a b : Z) :
  digit a = digit b -> a mod 10 = b mod 10.
Proof.
  unfold digit. intros H.
  pose proof (Z.mod_pos_bound a 10 ltac:(lia)) as Ha.
  pose proof (Z.mod_pos_bound b 10 ltac:(lia)) as Hb.
  apply (f_equal nat_of_ascii) in H.
  rewrite !nat_ascii_embedding in H by lia.
  lia.
Qed.

Lemma pad2_inj (a b : Z) :
  0 <= a < 100 -> 0 <= b < 100 -> pad2 a = pad2 b -> a = b.
Proof.
  intros Ha Hb H. unfold pad2 in H.
  injection H as H1 H0.
  apply digit_inj in H1, H0.
  Z.div_mod_to_equations. lia.
Qed.

Lemma pad4_inj (a b : Z) :
  0 <= a < 10000 -> 0 <= b < 10000 -> pad4 a = pad4 b -> a = b.
Proof.
  intros Ha Hb H. unfold pad4, pad2 in H.
  injection H as H3 H2 H1 H0.
  apply digit_inj in H3, H2, H1, H0.
  Z.div_mod_to_equations. lia.
Qed.

(** Clock readings that differ in some field down to the second are stamped
    differently. *)
Lemma strftime_run_id_inj (t1 t2 : datetime) :
  wf_datetime t1 -> wf_datetime t2 ->
  strftime_run_id t1 = strftime_run_id t2 -> t1 = t2.
Proof.
  intros (Hy1 & Hm1 & Hd1 & Hh1 & Hi1 & Hs1) (Hy2 & Hm2 & Hd2 & Hh2 & Hi2 & Hs2) H.
  destruct t1 as [y1 m1 d1 h1 i1 c1], t2 as [y2 m2 d2 h2 i2 c2].
  cbn [year month day hour minute second] in *.
  unfold strftime_run_id, pad4, pad2 in H.
  cbn [year month day hour minute second append] in H.
  injection H as E1 E2 E3 E4 E5 E6 E7 E8 E9 E10 E11 E12 E13 E14.
  assert (y1 = y2) as ->
    by (apply pad4_inj; [assumption .. | unfold pad4, pad2; congruence]).
  assert (m1 = m2) as ->
    by (apply pad2_inj; [assumption .. | unfold pad2; congruence]).
  assert (d1 = d2) as ->
    by (apply pad2_inj; [assumption .. | unfold pad2; congruence]).
  assert (h1 = h2) as ->
    by (apply pad2_inj; [assumption .. | unfold pad2; congruence]).
  assert (i1 = i2) as ->
    by (apply pad2_inj; [assumption .. | unfold pad2; congruence]).
  assert (c1 = c2) as ->
    by (apply pad2_inj; [assumption .. | unfold pad2; congruence]).
  reflexivity.
Qed.

Lemma reset_game_some (ss : session) (n_boxes : Z) (e : env) (s : session_state) :
  _reset_game ss n_boxes e = Some s ->
  s = mk_state n_boxes DEFAULT_COLS (get_payoff_per_box ss) (bomb_idx s)
               0 false None None (strftime_run_id (now e)) /\
  1 <= bomb_idx s <= n_boxes.
Proof.
  unfold _reset_game. destruct (randint (raw e) 1 n_boxes) as [b |] eqn:Hb;
    [| discriminate].
  intros H. injection H as <-. cbn. split; [reflexivity |].
  eapply randint_range, Hb.
Qed.

Lemma reset_game_total (ss : session) (n_boxes : Z) (e : env) :
  1 <= n_boxes -> exists s, _reset_game ss n_boxes e = Some s.
Proof.
  intros Hn. unfold _reset_game.
  destruct (randint_total (raw e) 1 n_boxes Hn) as (b & ->). eauto.
Qed.

Lemma ensure_state_total (ss : session) (e : env) :
  exists s, _ensure_state ss e = Some s.
Proof.
  destruct ss as [s |]; cbn [_ensure_state]; [eauto |].
  apply reset_game_total. unfold DEFAULT_N. lia.
Qed.

(** C5.  For a valid configuration (at least 10 boxes, a rate of at least 1
    held by the session or defaulted) the reset succeeds, whatever the
    generator and the clock deliver, and leaves a game with that
    configuration, the bomb in one of the boxes, nothing opened, nothing
    revealed, no outcome and no payoff. *)
Theorem reset_yields_fresh_game (ss : session) (n_boxes : Z) (e : env) :
  10 <= n_boxes ->
  1 <= get_payoff_per_box ss ->
  exists s,
    _reset_game ss n_boxes e = Some s /\
    n s = n_boxes /\ 1 <= payoff_per_box s /\
    1 <= bomb_idx s <= n s /\
    opened s = 0 /\ revealed s = false /\
    outcome s = None /\ payoff s = None.
Proof.
  intros Hn Hp.
  destruct (reset_game_total ss n_boxes e) as (s & Hs); [lia |].
  exists s. split; [exact Hs |].
  destruct (reset_game_some _ _ _ _ Hs) as (Heq & Hb).
  rewrite Heq. cbn. repeat split; auto; lia.
Qed.

Lemma reset_yields_fresh_game_witness :
  exists s,
    _reset_game None 10 sample_env = Some s /\
    n s = 10 /\ 1 <= payoff_per_box s /\
    1 <= bomb_idx s <= n s /\
    opened s = 0 /\ revealed s = false /\
    outcome s = None /\ payoff s = None.
Proof.
  apply (reset_yields_fresh_game None 10 sample_env);
    [lia | cbn; unfold DEFAULT_PAYOFF_PER_BOX; lia].
Defined.

(** C9 as stated fails in its last part: a reset within the second of the
    previous one starts a different game (here the bomb moves from box 5 to
    box 18) under the run id the session already had. *)
Lemma same_second_reset_keeps_run_id :
  _reset_game (Some sample_start) 20 same_second_env = Some same_second_game /\
  bomb_idx sample_start = 5 /\ bomb_idx same_second_game = 18 /\
  run_id same_second_game = run_id sample_start.
Proof. repeat split; reflexivity. Qed.

(** C9, amended.  [_reset_game] stores its argument as the number of boxes
    and draws the bomb within it; the rate is the one the session already
    holds, or the default 10 in a session that holds none; the grid columns
    become the default 10 whatever they were; and the run id is the clock
    reading formatted to the second: it differs from the previous run id
    when the clock shows another second than the one that was stamped, and
    it is the previous run id again when the reset falls in that same
    second. *)
Theorem reset_game_frame (ss : session) (n_boxes : Z) (e : env) (s' : session_state) :
  _reset_game ss n_boxes e = Some s' ->
  n s' = n_boxes /\
  payoff_per_box s' =
    match ss with
    | Some s => payoff_per_box s
    | None => 10
    end /\
  cols s' = 10 /\
  run_id s' = strftime_run_id (now e) /\
  (forall s t,
     ss = Some s -> run_id s = strftime_run_id t ->
     wf_datetime t -> wf_datetime (now e) -> t <> now e ->
     run_id s' <> run_id s) /\
  (forall s,
     ss = Some s -> run_id s = strftime_run_id (now e) ->
     run_id s' = run_id s).
Proof.
  intros H. destruct (reset_game_some _ _ _ _ H) as (Heq & _).
  rewrite Heq. cbn.
  split; [reflexivity |]. split; [destruct ss; reflexivity |].
  split; [reflexivity |]. split; [reflexivity |].
  split.
  - intros s t _ Hid Ht He Hne Heq'.
    apply Hne. apply strftime_run_id_inj; congruence.
  - intros s _ Hid. symmetry. exact Hid.
Qed.

Lemma reset_game_frame_witness :
  n reset_later = 20 /\ payoff_per_box reset_later = 25 /\
  cols reset_later = 10 /\
  run_id reset_later <> run_id edited_start.
Proof.
  destruct (reset_game_frame (Some edited_start) 20 later_env reset_later
              eq_refl) as (H1 & H2 & H3 & _ & H5 & _).
  split; [exact H1 |]. split; [exact H2 |]. split; [exact H3 |].
  apply (H5 edited_start (now sample_env)).
  - reflexivity.
  - reflexivity.
  - unfold wf_datetime. cbn. lia.
  - unfold wf_datetime. cbn. lia.
  - discriminate.
Defined.

(** ** The configuration during a game *)

Lemma script_run_same_game_frame (w : inputs) (s s' : session_state) (p : page) :
  same_game w ->
  script_run w (Some s) = Some (s', p) ->
  n s' = n s /\ cols s' = cols s /\ payoff_per_box s' = payoff_val w /\
  bomb_idx s' = bomb_idx s /\ run_id s' = run_id s.
Proof.
  intros Hw H. rewrite (script_run_same_game w s s' p Hw H).
  destruct (stop_frame (stop_clicked w)
              (open_next (open_clicked w) (payoff_input (payoff_val w) s)))
    as (-> & -> & -> & -> & _ & ->).
  destruct (open_next_frame (open_clicked w) (payoff_input (payoff_val w) s))
    as (-> & -> & -> & -> & _ & _ & _ & ->).
  destruct (payoff_input_frame (payoff_val w) s)
    as (-> & -> & -> & _ & _ & _ & _ & ->).
  rewrite payoff_input_rate. auto.
Qed.

Lemma last_cons_default {A : Type} (l : list A) (x d : A) :
  last (x :: l) d = last l x.
Proof.
  revert x d. induction l as [| y l IH]; intros x d; [reflexivity |].
  change (last (x :: y :: l) d) with (last (y :: l) d).
  rewrite (IH y d), (IH y x). reflexivity.
Qed.

Lemma script_runs_same_game_frame (ws : list inputs) (s s' : session_state) :
  Forall same_game ws ->
  script_runs ws (Some s) = Some (Some s') ->
  n s' = n s /\ cols s' = cols s /\
  payoff_per_box s' = last (map payoff_val ws) (payoff_per_box s) /\
  bomb_idx s' = bomb_idx s /\ run_id s' = run_id s.
Proof.
  revert s. induction ws as [| w ws IH]; intros s Hall H.
  - cbn in H. injection H as <-. cbn. auto.
  - inversion Hall as [| ? ? Hw Hws]; subst.
    cbn [script_runs] in H.
    destruct (script_run w (Some s)) as [[s1 p1] |] eqn:Hrun; [| discriminate].
    destruct (script_run_same_game_frame w s s1 p1 Hw Hrun)
      as (Hn & Hc & Hp & Hb & Hid).
    destruct (IH s1 Hws H) as (Hn' & Hc' & Hp' & Hb' & Hid').
    rewrite Hn', Hc', Hp', Hb', Hid', Hn, Hc, Hb, Hid.
    repeat split; try reflexivity.
    rewrite Hp. cbn [map]. symmetry. apply last_cons_default.
Qed.

Lemma steps_config (l : list action) (s : session_state) :
  n (steps l s) = n s /\ cols (steps l s) = cols s /\
  payoff_per_box (steps l s) = payoff_per_box s.
Proof.
  revert s. induction l as [| a l IH]; intros s; [cbn; auto |].
  rewrite steps_cons. destruct (IH (step a s)) as (-> & -> & ->).
  destruct a; cbn [step].
  - destruct (open_next_frame true s) as (-> & -> & -> & _). auto.
  - destruct (stop_frame true s) as (-> & -> & -> & _). auto.
Qed.

(** The payoff of the execution that reveals the game is computed with the
    rate its sidebar holds. *)
Lemma script_run_stop_rate (w : inputs) (s s' : session_state) (p : page) :
  same_game w ->
  script_run w (Some s) = Some (s', p) ->
  revealed s = false -> revealed s' = true ->
  (outcome s' = Some "bombed" /\ payoff s' = Some 0) \/
  (outcome s' = Some "safe" /\ payoff s' = Some (opened s' * payoff_val w)).
Proof.
  intros Hw H Hr Hr'.
  rewrite (script_run_same_game w s s' p Hw H) in Hr' |- *.
  set (s2 := open_next (open_clicked w) (payoff_input (payoff_val w) s)) in *.
  assert (Hr2 : revealed s2 = false).
  { subst s2.
    destruct (open_next_frame (open_clicked w) (payoff_input (payoff_val w) s))
      as (_ & _ & _ & _ & -> & _).
    destruct (payoff_input_frame (payoff_val w) s)
      as (_ & _ & _ & _ & -> & _). exact Hr. }
  assert (Hp2 : payoff_per_box s2 = payoff_val w).
  { subst s2.
    destruct (open_next_frame (open_clicked w) (payoff_input (payoff_val w) s))
      as (_ & _ & -> & _).
    apply payoff_input_rate. }
  unfold stop in *.
  destruct (button (stop_clicked w) (disabled_stop s2)); [| congruence].
  destruct (compute_payoff_cases s2) as [(_ & ->) | (_ & ->)]; cbn.
  - left. auto.
  - right. rewrite Hp2. auto.
Qed.

(** C4 as stated fails: in the game [sample_start] (rate 10 at the reset)
    the two executions of [edit_then_stop], neither of which presses "New
    Game", end with a rate of 50 and a payoff of 1 * 50. *)
Lemma rate_edited_mid_game :
  _reset_game None 10 sample_env = Some sample_start /\
  Forall same_game edit_then_stop /\
  payoff_per_box sample_start = 10 /\
  exists s',
    script_runs edit_then_stop (Some sample_start) = Some (Some s') /\
    payoff_per_box s' = 50 /\
    opened s' = 1 /\ outcome s' = Some "safe" /\ payoff s' = Some 50.
Proof.
  split; [reflexivity |].
  split; [repeat constructor |].
  split; [reflexivity |].
  eexists. split; [vm_compute; reflexivity |].
  cbn. auto.
Qed.

(** C4, amended.  The number of boxes and the grid columns keep their
    values through every execution that does not press "New Game", and the
    open and stop handlers write none of the three configuration values.
    The rate, however, is whatever the sidebar holds in the latest
    execution, and the payoff of the execution that reveals the game is
    computed with that rate. *)
Theorem config_during_game (s : session_state) :
  (forall l,
     n (steps l s) = n s /\ cols (steps l s) = cols s /\
     payoff_per_box (steps l s) = payoff_per_box s) /\
  (forall ws s',
     Forall same_game ws ->
     script_runs ws (Some s) = Some (Some s') ->
     n s' = n s /\ cols s' = cols s /\
     payoff_per_box s' = last (map payoff_val ws) (payoff_per_box s)) /\
  (forall w s' p,
     same_game w ->
     script_run w (Some s) = Some (s', p) ->
     revealed s = false -> revealed s' = true ->
     (outcome s' = Some "bombed" /\ payoff s' = Some 0) \/
     (outcome s' = Some "safe" /\ payoff s' = Some (opened s' * payoff_val w))).
Proof.
  split; [intros l; apply steps_config |].
  split.
  - intros ws s' Hall H.
    destruct (script_runs_same_game_frame ws s s' Hall H) as (? & ? & ? & _).
    auto.
  - intros w s' p. apply script_run_stop_rate.
Qed.

(** C10.  A stop that ends safe pays a positive amount, at least the rate:
    the stop needs one opened box and the rate is at least 1. *)
Theorem safe_payoff_positive (s : session_state) :
  revealed s = false ->
  1 <= opened s ->
  1 <= payoff_per_box s ->
  outcome (stop true s) = Some "safe" ->
  exists p,
    payoff (stop true s) = Some p /\
    p = opened s * payoff_per_box s /\
    payoff_per_box s <= p /\ 0 < p.
Proof.
  intros Hr Ho Hp Hsafe.
  rewrite stop_fires in * by (assumption || lia).
  destruct (compute_payoff_cases s) as [(_ & Hc) | (_ & Hc)];
    rewrite Hc in *; cbn in *; [discriminate |].
  eexists. split; [reflexivity |]. split; [reflexivity |]. nia.
Qed.

Lemma safe_payoff_positive_witness :
  exists p,
    payoff (stop true (steps (repeat OpenNext 4) sample_start)) = Some p /\
    p = opened (steps (repeat OpenNext 4) sample_start)
        * payoff_per_box (steps (repeat OpenNext 4) sample_start) /\
    payoff_per_box (steps (repeat OpenNext 4) sample_start) <= p /\ 0 < p.
Proof.
  apply (safe_payoff_positive (steps (repeat OpenNext 4) sample_start));
    [reflexivity | cbn; lia | cbn; lia | reflexivity].
Defined.

(** ** The invariant holds in every reachable state *)

Lemma game_inv_payoff_input (v : Z) (s : session_state) :
  1 <= v -> game_inv s -> game_inv (payoff_input v s).
Proof.
  intros Hv H. unfold payoff_input.
  destruct (negb (v =? payoff_per_box s)); [| exact H].
  unfold game_inv in *. cbn. intuition.
Qed.

Lemma game_inv_open_next (c : bool) (s : session_state) :
  game_inv s -> game_inv (open_next c s).
Proof.
  intros H. unfold open_next.
  destruct (button c (disabled_open s)) eqn:Hb; [| exact H].
  apply andb_true_iff in Hb. destruct Hb as (_ & Hb).
  apply negb_true_iff, disabled_open_false in Hb. destruct Hb as (Hr & Hlt).
  unfold game_inv in *. cbn.
  destruct H as (Hn & Hc & Hp & Hbomb & Ho & Hhid & Hrev).
  repeat split; try lia; try (apply Hhid; assumption); congruence.
Qed.

Lemma game_inv_stop (c : bool) (s : session_state) :
  game_inv s -> game_inv (stop c s).
Proof.
  intros H. unfold stop.
  destruct (button c (disabled_stop s)) eqn:Hb; [| exact H].
  apply andb_true_iff in Hb. destruct Hb as (_ & Hb).
  apply negb_true_iff, disabled_stop_false in Hb. destruct Hb as (Hr & Hne).
  destruct H as (Hn & Hc & Hp & Hbomb & Ho & Hhid & Hrev).
  destruct (compute_payoff_cases s) as [(Hle & ->) | (Hlt & ->)];
    unfold game_inv; cbn.
  - repeat split; try lia; try discriminate. left. auto.
  - repeat split; try lia; try discriminate. right.
    repeat split; try lia. exists (payoff_per_box s). auto.
Qed.

Lemma game_inv_reset (ss : session) (n_boxes : Z) (e : env) (s : session_state) :
  10 <= n_boxes <= 200 ->
  1 <= get_payoff_per_box ss ->
  _reset_game ss n_boxes e = Some s ->
  game_inv s.
Proof.
  intros Hn Hp H. destruct (reset_game_some _ _ _ _ H) as (Heq & Hb).
  rewrite Heq. unfold game_inv, DEFAULT_COLS. cbn.
  repeat split; try lia; discriminate.
Qed.

Lemma game_inv_set_cols (v : Z) (s : session_state) :
  5 <= v <= 20 -> game_inv s -> game_inv (set_cols v s).
Proof. unfold game_inv. cbn. intuition. Qed.

Lemma game_inv_ensure_state (ss : session) (e : env) (s : session_state) :
  (forall s0, ss = Some s0 -> game_inv s0) ->
  _ensure_state ss e = Some s ->
  game_inv s.
Proof.
  intros Hss H. destruct ss as [s0 |]; cbn [_ensure_state] in H.
  - injection H as <-. apply Hss. reflexivity.
  - eapply game_inv_reset; [| | exact H].
    + unfold DEFAULT_N. lia.
    + cbn. unfold DEFAULT_PAYOFF_PER_BOX. lia.
Qed.

Lemma script_run_inv (w : inputs) (ss : session) (s' : session_state) (p : page) :
  valid_inputs w ->
  (forall s0, ss = Some s0 -> game_inv s0) ->
  script_run w ss = Some (s', p) ->
  game_inv s'.
Proof.
  intros (Hv & Hn & Hc) Hss H. rewrite script_run_unfold in H.
  destruct (_ensure_state ss (env_init w)) as [s0 |] eqn:H0; [| discriminate].
  destruct (widgets_accept s0); [| discriminate]. cbv zeta in H.
  pose proof (game_inv_ensure_state _ _ _ Hss H0) as Hi0.
  pose proof (game_inv_payoff_input (payoff_val w) s0 Hv Hi0) as Hi1.
  destruct (button (new_game_clicked w) false).
  - unfold new_game in H.
    destruct (_reset_game (Some (payoff_input (payoff_val w) s0))
                (n_val w) (env_new w)) as [s2 |] eqn:H2; [| discriminate].
    injection H as <- _.
    apply game_inv_set_cols; [assumption |].
    eapply game_inv_reset; [exact Hn | | exact H2].
    cbn. rewrite payoff_input_rate. exact Hv.
  - assert (s' = stop (stop_clicked w)
                   (open_next (open_clicked w) (payoff_input (payoff_val w) s0)))
      as -> by (destruct (button (stop_clicked w) _); congruence).
    apply game_inv_stop, game_inv_open_next, Hi1.
Qed.

Lemma ensure_state_accept (ss : session) (e : env) (s0 : session_state) :
  (forall s, ss = Some s -> widgets_accept s = true) ->
  _ensure_state ss e = Some s0 ->
  widgets_accept s0 = true.
Proof.
  intros Hss H. destruct ss as [s |]; cbn [_ensure_state] in H.
  - injection H as <-. apply Hss. reflexivity.
  - destruct (reset_game_some _ _ _ _ H) as (-> & _). reflexivity.
Qed.

(** The script does not fail on the values its widgets can deliver when the
    session is new or holds values its number inputs accept. *)
Lemma script_run_total (w : inputs) (ss : session) :
  valid_inputs w ->
  (forall s, ss = Some s -> widgets_accept s = true) ->
  exists s' p, script_run w ss = Some (s', p).
Proof.
  intros (Hv & Hn & Hc) Hss. rewrite script_run_unfold.
  destruct (ensure_state_total ss (env_init w)) as (s0 & H0). rewrite H0.
  rewrite (ensure_state_accept ss _ s0 Hss H0). cbv zeta.
  destruct (button (new_game_clicked w) false).
  - unfold new_game.
    destruct (reset_game_total (Some (payoff_input (payoff_val w) s0))
                (n_val w) (env_new w)) as (s2 & ->); [lia |].
    eauto.
  - destruct (button (stop_clicked w) _); eauto.
Qed.

(** What an execution leaves in the session is accepted by the number
    inputs of the next one. *)
Lemma script_run_accept (w : inputs) (ss : session) (s' : session_state)
    (p : page) :
  valid_inputs w ->
  script_run w ss = Some (s', p) ->
  widgets_accept s' = true.
Proof.
  intros (Hv & Hn & Hc) H. rewrite script_run_unfold in H.
  destruct (_ensure_state ss (env_init w)) as [s0 |]; [| discriminate].
  destruct (widgets_accept s0) eqn:Hacc; [| discriminate]. cbv zeta in H.
  apply widgets_accept_iff in Hacc. apply widgets_accept_iff.
  destruct (button (new_game_clicked w) false).
  - unfold new_game in H.
    destruct (_reset_game (Some (payoff_input (payoff_val w) s0))
                (n_val w) (env_new w)) as [s2 |] eqn:H2; [| discriminate].
    injection H as <- _.
    destruct (reset_game_some _ _ _ _ H2) as (-> & _). cbn.
    rewrite payoff_input_rate. lia.
  - assert (s' = stop (stop_clicked w)
                   (open_next (open_clicked w) (payoff_input (payoff_val w) s0)))
      as -> by (destruct (button (stop_clicked w) _); congruence).
    destruct (stop_frame (stop_clicked w)
                (open_next (open_clicked w) (payoff_input (payoff_val w) s0)))
      as (-> & -> & -> & _).
    destruct (open_next_frame (open_clicked w) (payoff_input (payoff_val w) s0))
      as (-> & -> & -> & _).
    destruct (payoff_input_frame (payoff_val w) s0) as (-> & -> & _).
    rewrite payoff_input_rate. lia.
Qed.

Lemma script_runs_inv (ws : list inputs) (ss : session) (s' : session_state) :
  Forall valid_inputs ws ->
  (forall s0, ss = Some s0 -> game_inv s0) ->
  script_runs ws ss = Some (Some s') ->
  game_inv s'.
Proof.
  revert ss. induction ws as [| w ws IH]; intros ss Hall Hss H.
  - cbn in H. injection H as ->. apply Hss. reflexivity.
  - inversion Hall as [| ? ? Hw Hws]; subst. cbn [script_runs] in H.
    destruct (script_run w ss) as [[s1 p1] |] eqn:Hrun; [| discriminate].
    apply (IH (Some s1)); [assumption | | assumption].
    intros s0 E. injection E as <-.
    eapply script_run_inv; eassumption.
Qed.

Lemma reachable_inv (s : session_state) : reachable s -> game_inv s.
Proof.
  intros (ws & Hall & H).
  apply (script_runs_inv ws None s Hall); [discriminate | exact H].
Qed.

Lemma sample_start_reachable : reachable sample_start.
Proof.
  exists [mk_inputs 10 10 10 true false false sample_env sample_env].
  split; [repeat constructor; cbn; lia |].
  vm_compute. reflexivity.
Qed.

(** * Further properties of the script *)

(** ** The grid loop *)

Lemma seq_offset (a b len : nat) :
  map (fun c => (a + c)%nat) (seq b len) = seq (a + b) len.
Proof.
  revert b. induction len as [| len IH]; intros b; [reflexivity |].
  cbn [seq map]. f_equal. rewrite IH. f_equal. lia.
Qed.

Lemma flat_map_map_arg {A B C : Type} (f : B -> list C) (h : A -> B) (l : list A) :
  flat_map f (map h l) = flat_map (fun x => f (h x)) l.
Proof.
  induction l as [| x l IH]; [reflexivity |].
  cbn [map flat_map]. rewrite IH. reflexivity.
Qed.

Lemma flat_map_nested {A B C : Type} (f : B -> list C) (h : A -> list B) (l : list A) :
  flat_map f (flat_map h l) = flat_map (fun x => flat_map f (h x)) l.
Proof.
  induction l as [| x l IH]; [reflexivity |].
  cbn [flat_map]. rewrite flat_map_app, IH. reflexivity.
Qed.

Lemma flat_map_ext_in {A B : Type} (f g : A -> list B) (l : list A) :
  (forall x, In x l -> f x = g x) -> flat_map f l = flat_map g l.
Proof.
  induction l as [| x l IH]; intros H; [reflexivity |].
  cbn [flat_map]. rewrite (H x (or_introl eq_refl)), IH; [reflexivity |].
  intros y Hy. apply H. right. exact Hy.
Qed.

Lemma flat_map_singletons {A B : Type} (f : A -> B) (l : list A) :
  flat_map (fun x => [f x]) l = map f l.
Proof.
  induction l as [| x l IH]; [reflexivity |].
  cbn [flat_map map]. rewrite IH. reflexivity.
Qed.

Lemma flat_map_nils {A B : Type} (l : list A) :
  flat_map (fun _ : A => @nil B) l = [].
Proof. induction l as [| x l IH]; [reflexivity | exact IH]. Qed.

(** Rows of [C] columns, row after row, number the cells consecutively. *)
Lemma seq_blocks (R C : nat) :
  flat_map (fun r => map (fun c => (r * C + c)%nat) (seq 0 C)) (seq 0 R)
  = seq 0 (R * C).
Proof.
  induction R as [| R IH]; [reflexivity |].
  rewrite seq_S, flat_map_app, IH. cbn [flat_map Nat.add].
  rewrite app_nil_r, seq_offset, Nat.add_0_r.
  replace (S R * C)%nat with (R * C + C)%nat by lia.
  rewrite seq_app. reflexivity.
Qed.

(** [(n + cols - 1) // cols] rows are enough for [n] cells. *)
Lemma rows_cover (n cols : Z) :
  0 < cols -> n <= (n + cols - 1) / cols * cols.
Proof. intros Hc. Z.div_mod_to_equations. nia. Qed.

Lemma grid_cells (n cols : Z) (cell : Z -> string) :
  0 < cols ->
  flat_map (fun r =>
    flat_map (fun c =>
      let i := r * cols + c + 1 in
      if i >? n then [] else [cell i])
    (range cols))
  (range ((n + cols - 1) / cols))
  = map cell (boxes n).
Proof.
  intros Hc. unfold boxes, range.
  set (R := Z.to_nat ((n + cols - 1) / cols)).
  set (C := Z.to_nat cols).
  set (g := fun j : nat =>
              if Z.of_nat j + 1 >? n then [] else [cell (Z.of_nat j + 1)]).
  transitivity (flat_map g (seq 0 (R * C))).
  - rewrite <- seq_blocks, flat_map_nested, flat_map_map_arg.
    apply flat_map_ext. intros r.
    rewrite !flat_map_map_arg. apply flat_map_ext. intros c.
    unfold g. cbv zeta.
    replace (Z.of_nat (r * C + c) + 1) with (Z.of_nat r * cols + Z.of_nat c + 1)
      by (subst C; nia).
    reflexivity.
  - set (N := Z.to_nat n).
    assert (HN : (N <= R * C)%nat).
    { pose proof (rows_cover n cols Hc). subst N R C.
      destruct (Z.le_gt_cases 0 ((n + cols - 1) / cols)); nia. }
    replace (R * C)%nat with (N + (R * C - N))%nat by lia.
    rewrite seq_app, flat_map_app.
    rewrite (flat_map_ext_in g (fun j => [cell (Z.of_nat j + 1)]) (seq 0 N)).
    2:{ intros j Hj. apply in_seq in Hj. unfold g.
        destruct (Z.gtb_spec (Z.of_nat j + 1) n); [subst N; lia | reflexivity]. }
    rewrite (flat_map_ext_in g (fun _ => []) (seq (0 + N) _)).
    2:{ intros j Hj. apply in_seq in Hj. unfold g.
        destruct (Z.gtb_spec (Z.of_nat j + 1) n); [reflexivity | subst N; lia]. }
    rewrite flat_map_nils, app_nil_r, flat_map_singletons, !map_map.
    reflexivity.
Qed.

(** X1.  Whatever the (positive) number of columns, the two nested loops of
    the grid draw one cell button per box, in the order of the boxes 1, 2,
    ..., n: the last row stops after box n and no box is drawn twice. *)
Theorem grid_draws_each_box_once (s : session_state) :
  0 < cols s ->
  grid s = map (cell_text s) (boxes (n s)) /\
  length (grid s) = Z.to_nat (n s).
Proof.
  intros Hc.
  assert (E : grid s = map (cell_text s) (boxes (n s)))
    by exact (grid_cells (n s) (cols s) (cell_text s) Hc).
  split; [exact E |].
  rewrite E. unfold boxes, range.
  rewrite !length_map, length_seq. reflexivity.
Qed.

Lemma grid_draws_each_box_once_witness :
  grid (set_cols 7 reset_again) = map (cell_text (set_cols 7 reset_again)) (boxes 20) /\
  length (grid (set_cols 7 reset_again)) = 20%nat.
Proof.
  apply (grid_draws_each_box_once (set_cols 7 reset_again)). cbn. lia.
Defined.

(** ** What the grid shows *)

Lemma shows_bomb_cell (s : session_state) (i : Z) :
  shows BOMB (cell_text s i) = revealed s && (i =? bomb_idx s).
Proof.
  unfold shows, cell_text, _cell_label.
  destruct (revealed s), (i =? bomb_idx s), (i <=? opened s); reflexivity.
Qed.

Lemma shows_green_cell (s : session_state) (i : Z) :
  shows GREEN (cell_text s i)
  = (i <=? opened s) && negb (revealed s && (i =? bomb_idx s)).
Proof.
  unfold shows, cell_text, _cell_label.
  destruct (revealed s), (i =? bomb_idx s), (i <=? opened s); reflexivity.
Qed.

Lemma boxes_nat (k : Z) :
  boxes k = map (fun j => Z.of_nat j + 1) (seq 0 (Z.to_nat k)).
Proof. unfold boxes, range. rewrite map_map. reflexivity. Qed.

Lemma filter_boxes_eq (b : Z) (N : nat) :
  filter (fun i => i =? b) (map (fun j => Z.of_nat j + 1) (seq 0 N))
  = if (1 <=? b) && (b <=? Z.of_nat N) then [b] else [].
Proof.
  induction N as [| N IH].
  - cbn. destruct (Z.leb_spec 1 b), (Z.leb_spec b 0); cbn; try reflexivity. lia.
  - rewrite seq_S, map_app, filter_app, IH. cbn [map filter Nat.add].
    destruct (Z.eqb_spec (Z.of_nat N + 1) b) as [E | E];
      destruct (Z.leb_spec 1 b), (Z.leb_spec b (Z.of_nat N)),
        (Z.leb_spec b (Z.of_nat (S N))); cbn; try reflexivity; try lia.
    congruence.
Qed.

Lemma filter_boxes_le (k : Z) (N : nat) :
  filter (fun i => i <=? k) (map (fun j => Z.of_nat j + 1) (seq 0 N))
  = map (fun j => Z.of_nat j + 1) (seq 0 (Z.to_nat (Z.min k (Z.of_nat N)))).
Proof.
  induction N as [| N IH].
  - replace (Z.to_nat (Z.min k (Z.of_nat 0))) with 0%nat by lia. reflexivity.
  - rewrite seq_S, map_app, filter_app, IH. cbn [map filter Nat.add].
    destruct (Z.leb_spec (Z.of_nat N + 1) k) as [Hle | Hgt].
    + replace (Z.to_nat (Z.min k (Z.of_nat N))) with N by lia.
      replace (Z.to_nat (Z.min k (Z.of_nat (S N)))) with (S N) by lia.
      rewrite seq_S, map_app. reflexivity.
    + replace (Z.to_nat (Z.min k (Z.of_nat (S N))))
        with (Z.to_nat (Z.min k (Z.of_nat N))) by lia.
      apply app_nil_r.
Qed.

Lemma filter_andb {A : Type} (p q : A -> bool) (l : list A) :
  filter (fun x => p x && q x) l = filter q (filter p l).
Proof.
  induction l as [| x l IH]; [reflexivity |].
  cbn [filter]. destruct (p x); cbn [andb filter]; rewrite IH; reflexivity.
Qed.

Lemma grid_as_boxes (s : session_state) :
  0 < cols s -> grid s = map (cell_text s) (boxes (n s)).
Proof. intros Hc. exact (grid_cells (n s) (cols s) (cell_text s) Hc). Qed.

Lemma filter_boxes_upto (k m : Z) :
  k <= m -> filter (fun i => i <=? k) (boxes m) = boxes k.
Proof.
  intros Hle. rewrite !boxes_nat, filter_boxes_le.
  replace (Z.to_nat (Z.min k (Z.of_nat (Z.to_nat m)))) with (Z.to_nat k) by lia.
  reflexivity.
Qed.

(** X2.  Before the reveal no cell of the grid shows the bomb.  After it,
    with the bomb in one of the boxes, exactly one cell shows it, and that
    is the cell of the bomb's box. *)
Theorem grid_bomb_cell (s : session_state) :
  0 < cols s ->
  (revealed s = false -> filter (shows BOMB) (grid s) = []) /\
  (revealed s = true -> 1 <= bomb_idx s <= n s ->
     filter (shows BOMB) (grid s) = [cell_text s (bomb_idx s)]).
Proof.
  intros Hc. rewrite (grid_as_boxes s Hc), filter_map_swap.
  rewrite (filter_ext _ _ (shows_bomb_cell s)).
  split.
  - intros ->. cbn [andb]. rewrite filter_false. reflexivity.
  - intros -> Hb. cbn [andb]. rewrite boxes_nat, filter_boxes_eq.
    destruct (Z.leb_spec 1 (bomb_idx s)); [| lia].
    destruct (Z.leb_spec (bomb_idx s) (Z.of_nat (Z.to_nat (n s)))); [| lia].
    reflexivity.
Qed.

Lemma grid_bomb_cell_witness :
  filter (shows BOMB) (grid (stop true (steps (repeat OpenNext 4) sample_start)))
  = [cell_text (stop true (steps (repeat OpenNext 4) sample_start)) 5].
Proof.
  apply (grid_bomb_cell (stop true (steps (repeat OpenNext 4) sample_start)));
    [cbn; lia | reflexivity | cbn; lia].
Defined.

(** X3.  With the opened count within the number of boxes, the green cells
    of the grid are, in order, those of the boxes 1 .. opened before the
    reveal, and those of the boxes 1 .. opened other than the bomb's after
    it. *)
Theorem grid_green_cells (s : session_state) :
  0 < cols s ->
  opened s <= n s ->
  (revealed s = false ->
     filter (shows GREEN) (grid s) = map (cell_text s) (boxes (opened s))) /\
  (revealed s = true ->
     filter (shows GREEN) (grid s)
     = map (cell_text s)
           (filter (fun i => negb (i =? bomb_idx s)) (boxes (opened s)))).
Proof.
  intros Hc Ho. rewrite (grid_as_boxes s Hc), filter_map_swap.
  rewrite (filter_ext _ _ (shows_green_cell s)).
  rewrite (filter_andb (fun i => i <=? opened s)), (filter_boxes_upto _ _ Ho).
  split; intros ->; cbn [andb negb]; [rewrite filter_true |]; reflexivity.
Qed.

Lemma grid_green_cells_witness :
  filter (shows GREEN) (grid (steps (repeat OpenNext 6) sample_start))
  = map (cell_text (steps (repeat OpenNext 6) sample_start)) (boxes 6).
Proof.
  apply (grid_green_cells (steps (repeat OpenNext 6) sample_start));
    [cbn; lia | cbn; lia | reflexivity].
Defined.

(** ** Whole executions *)

(** X4.  In a session that is new, or that holds values the three number
    inputs accept (a rate of at least 1, 10 to 200 boxes, 5 to 20 columns),
    an execution in which "New Participant / New Game" is pressed succeeds
    for the values the widgets can hold; whatever else is pressed in it, it
    ends in a fresh game with the number of boxes, the grid columns and the
    rate of the sidebar, the bomb in one of the boxes, nothing opened and
    nothing revealed, stamped from the clock, and prints the page of that
    game. *)
Theorem new_game_execution (w : inputs) (ss : session) :
  valid_inputs w ->
  new_game_clicked w = true ->
  (forall s, ss = Some s -> widgets_accept s = true) ->
  exists s',
    script_run w ss = Some (s', render s') /\
    n s' = n_val w /\ cols s' = cols_val w /\
    payoff_per_box s' = payoff_val w /\
    1 <= bomb_idx s' <= n_val w /\
    opened s' = 0 /\ revealed s' = false /\
    outcome s' = None /\ payoff s' = None /\
    run_id s' = strftime_run_id (now (env_new w)).
Proof.
  intros (Hv & Hn & Hc) Hclick Hss. rewrite script_run_unfold.
  destruct (ensure_state_total ss (env_init w)) as (s0 & H0). rewrite H0.
  rewrite (ensure_state_accept ss _ s0 Hss H0). cbv zeta.
  rewrite Hclick. cbn [button andb negb]. unfold new_game.
  destruct (reset_game_total (Some (payoff_input (payoff_val w) s0))
              (n_val w) (env_new w)) as (s2 & H2); [lia |].
  rewrite H2. exists (set_cols (cols_val w) s2).
  split; [reflexivity |].
  destruct (reset_game_some _ _ _ _ H2) as (Heq & Hb).
  rewrite Heq. cbn. rewrite payoff_input_rate. auto 10.
Qed.

Lemma new_game_execution_witness :
  exists s',
    script_run (mk_inputs 3 20 7 true true true sample_env sample_env)
               (Some sample_start) = Some (s', render s') /\
    n s' = 20 /\ cols s' = 7 /\ payoff_per_box s' = 3 /\
    1 <= bomb_idx s' <= 20 /\
    opened s' = 0 /\ revealed s' = false /\
    outcome s' = None /\ payoff s' = None /\
    run_id s' = strftime_run_id (now sample_env).
Proof.
  apply (new_game_execution
           (mk_inputs 3 20 7 true true true sample_env sample_env)
           (Some sample_start));
    [unfold valid_inputs; cbn; lia | reflexivity
    | intros s E; injection E as <-; reflexivity].
Defined.

(** X5.  Starting from a new browser session, or from one that holds
    values the three number inputs accept, and with values the widgets can
    hold, no execution of a series fails: the series yields one state and
    one page per execution.  From a session that holds a rate below 1, a
    number of boxes outside 10 .. 200 or a number of columns outside
    5 .. 20, every execution fails in the sidebar, whatever is pressed. *)
Theorem script_never_fails (ws : list inputs) (ss : session) :
  Forall valid_inputs ws ->
  (forall s, ss = Some s -> widgets_accept s = true) ->
  (exists tr, script_trace ws ss = Some tr /\ length tr = length ws) /\
  (forall w s, widgets_accept s = false -> script_run w (Some s) = None).
Proof.
  intros Hall Hss. split.
  - revert ss Hss. induction Hall as [| w ws Hw Hws IH]; intros ss Hss.
    + exists []. split; reflexivity.
    + destruct (script_run_total w ss Hw Hss) as (s & p & Hrun).
      destruct (IH (Some s)) as (tr & Htr & Hlen).
      { intros s1 E. injection E as <-.
        exact (script_run_accept w ss s p Hw Hrun). }
      exists ((s, p) :: tr). cbn [script_trace]. rewrite Hrun, Htr.
      split; [reflexivity | cbn; rewrite Hlen; reflexivity].
  - intros w s Hacc. rewrite script_run_unfold. cbn [_ensure_state].
    rewrite Hacc. reflexivity.
Qed.

Lemma script_never_fails_witness :
  exists tr, script_trace open_all_ten None = Some tr /\
             length tr = length open_all_ten.
Proof.
  apply (script_never_fails open_all_ten None).
  - repeat constructor; cbn; lia.
  - discriminate.
Defined.

(** X6.  In every state the script can reach from a new browser session
    with values the widgets can hold: the number of boxes is within 10 ..
    200, the columns within 5 .. 20, the rate at least 1, the bomb in one
    of the boxes and the opened count within the number of boxes; before the
    reveal there is no outcome and no payoff; after it at least one box is
    open and either the bomb is among the opened boxes, the outcome is
    "bombed" and the payoff 0, or it is not, the outcome is "safe" and the
    payoff is the opened count times a rate of at least 1. *)
Theorem reachable_state_invariant (s : session_state) :
  reachable s ->
  10 <= n s <= 200 /\ 5 <= cols s <= 20 /\ 1 <= payoff_per_box s /\
  1 <= bomb_idx s <= n s /\ 0 <= opened s <= n s /\
  (revealed s = false -> outcome s = None /\ payoff s = None) /\
  (revealed s = true ->
     1 <= opened s /\
     ((bomb_idx s <= opened s /\
       outcome s = Some "bombed" /\ payoff s = Some 0) \/
      (opened s < bomb_idx s /\
       outcome s = Some "safe" /\
       exists rate, 1 <= rate /\ payoff s = Some (opened s * rate)))).
Proof. intros H. exact (reachable_inv s H). Qed.

Lemma reachable_state_invariant_witness :
  1 <= bomb_idx sample_start <= n sample_start /\
  0 <= opened sample_start <= n sample_start.
Proof.
  destruct (reachable_state_invariant sample_start) as (_ & _ & _ & Hb & Ho & _).
  - exists [mk_inputs 10 10 10 true false false sample_env sample_env].
    split; [repeat constructor; cbn; lia | vm_compute; reflexivity].
  - split; assumption.
Defined.

(** X7.  In every reachable state no value of the export record is [None]:
    before the reveal the hidden entries carry their placeholders, and after
    it the outcome and the payoff are set. *)
Theorem export_record_has_no_none (s : session_state) :
  reachable s -> no_none (export_record s).
Proof.
  intros H. apply reachable_inv in H.
  destruct H as (_ & _ & _ & _ & _ & _ & Hrev).
  intros k Hin. unfold export_record in Hin. cbn [In] in Hin.
  destruct (revealed s) eqn:Hr.
  - destruct (Hrev eq_refl) as (_ & [(_ & Ho & Hp) | (_ & Ho & rate & _ & Hp)]);
      rewrite Ho, Hp in Hin; cbn in Hin;
      repeat (destruct Hin as [Hin | Hin]; [discriminate |]); exact Hin.
  - repeat (destruct Hin as [Hin | Hin]; [discriminate |]). exact Hin.
Qed.

Lemma export_record_has_no_none_witness :
  no_none (export_record sample_start) /\ revealed sample_start = false.
Proof.
  split; [| reflexivity].
  apply (export_record_has_no_none sample_start).
  exists [mk_inputs 10 10 10 true false false sample_env sample_env].
  split; [repeat constructor; cbn; lia | vm_compute; reflexivity].
Defined.

(** ** What one game can and cannot change *)

Lemma steps_bomb (l : list action) (s : session_state) :
  bomb_idx (steps l s) = bomb_idx s /\ run_id (steps l s) = run_id s.
Proof.
  revert s. induction l as [| a l IH]; intros s; [cbn; auto |].
  rewrite steps_cons. destruct (IH (step a s)) as (-> & ->).
  destruct a; cbn [step].
  - destruct (open_next_frame true s) as (_ & _ & _ & -> & _ & _ & _ & ->). auto.
  - destruct (stop_frame true s) as (_ & _ & _ & -> & _ & ->). auto.
Qed.

(** X8.  The bomb does not move and the run id does not change during a
    game: they are the same after any series of open and stop actions and
    after any series of executions in which "New Game" is not pressed. *)
Theorem bomb_fixed_during_game (s : session_state) :
  (forall l, bomb_idx (steps l s) = bomb_idx s /\ run_id (steps l s) = run_id s) /\
  (forall ws s',
     Forall same_game ws ->
     script_runs ws (Some s) = Some (Some s') ->
     bomb_idx s' = bomb_idx s /\ run_id s' = run_id s).
Proof.
  split; [intros l; apply steps_bomb |].
  intros ws s' Hall H.
  destruct (script_runs_same_game_frame ws s s' Hall H) as (_ & _ & _ & Hb & Hid).
  auto.
Qed.

Lemma execution_parts (w : inputs) (s : session_state) :
  let t := payoff_input (payoff_val w) s in
  let u := open_next (open_clicked w) t in
  revealed t = revealed s /\ opened t = opened s /\ n t = n s /\
  outcome t = outcome s /\ payoff t = payoff s /\
  revealed u = revealed s /\ n u = n s /\
  outcome u = outcome s /\ payoff u = payoff s /\
  payoff_per_box u = payoff_val w.
Proof.
  cbv zeta.
  destruct (open_next_frame (open_clicked w) (payoff_input (payoff_val w) s))
    as (-> & _ & -> & _ & -> & -> & -> & _).
  destruct (payoff_input_frame (payoff_val w) s)
    as (-> & _ & _ & -> & -> & -> & -> & _).
  rewrite payoff_input_rate. auto 12.
Qed.

(** X9.  An execution without "New Game" opens at most one box: the opened
    count goes up by one exactly when the [st.button] call of "Open next
    box" receives a press in that execution ([open_clicked]) while the game
    is not revealed and a box is left, and stays as it is otherwise. *)
Theorem execution_opens_at_most_one (w : inputs) (s s' : session_state) (p : page) :
  same_game w ->
  script_run w (Some s) = Some (s', p) ->
  opened s' = opened s +
    (if open_clicked w && negb (revealed s) && (opened s <? n s) then 1 else 0).
Proof.
  intros Hw H. rewrite (script_run_same_game w s s' p Hw H).
  destruct (stop_frame (stop_clicked w)
              (open_next (open_clicked w) (payoff_input (payoff_val w) s)))
    as (_ & _ & _ & _ & -> & _).
  destruct (execution_parts w s) as (Hr & Ho & Hn & _).
  unfold open_next, disabled_open, button. rewrite Hr, Ho, Hn, Z.geb_leb.
  destruct (open_clicked w), (revealed s), (Z.leb_spec (n s) (opened s)),
    (Z.ltb_spec (opened s) (n s)); cbn; rewrite ?Ho; lia.
Qed.

Lemma execution_opens_at_most_one_witness :
  exists s' p,
    script_run (mk_inputs 10 10 10 false true false sample_env sample_env)
               (Some sample_start) = Some (s', p) /\
    opened s' = 1.
Proof.
  eexists. eexists. split.
  - vm_compute. reflexivity.
  - eapply (execution_opens_at_most_one
              (mk_inputs 10 10 10 false true false sample_env sample_env)
              sample_start _ _ eq_refl).
    vm_compute. reflexivity.
Defined.

(** X10.  In a game not yet revealed, an execution without "New Game"
    reveals it exactly when "Stop & Reveal" is pressed and, after the open
    handler of that same execution, at least one box is open; an execution
    that does not reveal the game leaves the outcome and the payoff as they
    were. *)
Theorem reveal_only_by_stop (w : inputs) (s s' : session_state) (p : page) :
  same_game w ->
  script_run w (Some s) = Some (s', p) ->
  revealed s = false ->
  (revealed s' = true <-> stop_clicked w = true /\ opened s' <> 0) /\
  (revealed s' = false -> outcome s' = outcome s /\ payoff s' = payoff s).
Proof.
  intros Hw H Hr. rewrite (script_run_same_game w s s' p Hw H).
  destruct (execution_parts w s) as (_ & _ & _ & _ & _ & Hru & _ & Hou & Hpu & _).
  cbv zeta in *.
  set (u := open_next (open_clicked w) (payoff_input (payoff_val w) s)) in *.
  destruct (stop_frame (stop_clicked w) u) as (_ & _ & _ & _ & -> & _).
  unfold stop, disabled_stop, button. rewrite Hru, Hr. cbn [orb].
  destruct (stop_clicked w), (Z.eqb_spec (opened u) 0) as [E | E];
    cbn [andb negb];
    try (destruct (compute_payoff_cases u) as [(_ & ->) | (_ & ->)]; cbn);
    rewrite ?Hru, ?Hr, ?Hou, ?Hpu;
    (split; [split; [intros; try discriminate; auto
                    | intros (? & ?); try discriminate; try contradiction; auto]
            | intros; try discriminate; auto]).
Qed.

Lemma reveal_only_by_stop_witness :
  exists s' p,
    script_run (mk_inputs 10 10 10 false false true sample_env sample_env)
               (Some sample_start) = Some (s', p) /\
    outcome s' = outcome sample_start /\ payoff s' = payoff sample_start.
Proof.
  eexists. eexists. split.
  - vm_compute. reflexivity.
  - eapply (reveal_only_by_stop
              (mk_inputs 10 10 10 false false true sample_env sample_env)
              sample_start _ _ eq_refl); [vm_compute | | ]; reflexivity.
Defined.

(** X11.  In a reachable, unrevealed game a stop after every box was opened
    always ends "bombed" with payoff 0, and a stop that ends "safe" pays at
    most (number of boxes - 1) times the rate. *)
Theorem opening_every_box_loses (s : session_state) :
  reachable s ->
  revealed s = false ->
  (opened s = n s ->
     outcome (stop true s) = Some "bombed" /\ payoff (stop true s) = Some 0) /\
  (outcome (stop true s) = Some "safe" ->
     exists q, payoff (stop true s) = Some q /\
               0 < q <= (n s - 1) * payoff_per_box s).
Proof.
  intros H Hr. apply reachable_inv in H.
  destruct H as (Hn & _ & Hp & Hb & Ho & Hhid & _).
  destruct (Hhid Hr) as (Hout & _).
  split.
  - intros Hall. rewrite stop_fires by (assumption || lia).
    destruct (compute_payoff_cases s) as [(_ & ->) | (Hlt & _)]; [| lia].
    cbn. auto.
  - intros Hsafe.
    destruct (Z.eq_dec (opened s) 0) as [E | E].
    { rewrite stop_nothing_opened in Hsafe by assumption. congruence. }
    rewrite stop_fires in * by assumption.
    destruct (compute_payoff_cases s) as [(_ & Hc) | (Hlt & Hc)];
      rewrite Hc in *; cbn in *; [discriminate |].
    eexists. split; [reflexivity |]. nia.
Qed.

Lemma opening_every_box_loses_witness :
  outcome (stop true (mk_state 10 10 10 5 10 false None None "20240309-140507"))
  = Some "bombed" /\
  payoff (stop true (mk_state 10 10 10 5 10 false None None "20240309-140507"))
  = Some 0.
Proof.
  apply (opening_every_box_loses
           (mk_state 10 10 10 5 10 false None None "20240309-140507")).
  - exists open_all_ten.
    split; [repeat constructor; cbn; lia | vm_compute; reflexivity].
  - reflexivity.
  - reflexivity.
Defined.

(** X12.  After an execution in which "Open next box" opens a box and
    nothing else is pressed, the status line and the label of the open
    button on the page are still those of the count before the open, while
    the grid and the export record on the same page are those of the state
    after it: the status line is printed before the handler runs and no
    rerun follows. *)
Theorem status_line_lags_after_open (w : inputs) (s s' : session_state) (p : page) :
  same_game w ->
  open_clicked w = true ->
  stop_clicked w = false ->
  revealed s = false ->
  opened s < n s ->
  script_run w (Some s) = Some (s', p) ->
  opened s' = opened s + 1 /\
  pg_status p
    = "Boxes opened: **" ++ str (opened s) ++ " / " ++ str (n s) ++ "**" /\
  pg_open_label p = open_button_label s /\
  pg_grid p = grid s' /\
  pg_export p = export_record s' /\
  In ("opened", PyInt (opened s + 1)) (pg_export p).
Proof.
  intros Hw Hopen Hstop Hr Hlt H.
  red in Hw. rewrite script_run_unfold in H. cbn [_ensure_state] in H.
  destruct (widgets_accept s); [| discriminate]. cbv zeta in H.
  rewrite Hw, Hstop in H. cbn [button andb] in H.
  unfold stop in H. cbn [button andb] in H.
  injection H as <- <-. cbn [pg_status pg_open_label pg_grid pg_export].
  destruct (execution_parts w s) as (Hrt & Hot & Hnt & _).
  cbv zeta in *.
  set (t := payoff_input (payoff_val w) s) in *.
  rewrite Hopen.
  rewrite (open_next_fires t) by congruence.
  unfold status_line, open_button_label, export_record.
  cbn [opened set_opened n revealed In]. rewrite Hrt, Hr, Hot, Hnt. cbn [negb].
  repeat split; auto.
Qed.

Lemma status_line_lags_after_open_witness :
  exists s' p,
    script_run (mk_inputs 10 10 10 false true false sample_env sample_env)
               (Some sample_start) = Some (s', p) /\
    opened s' = 1 /\
    pg_status p = "Boxes opened: **0 / 10**" /\
    In ("opened", PyInt 1) (pg_export p).
Proof.
  eexists. eexists. split.
  - vm_compute. reflexivity.
  - edestruct (status_line_lags_after_open
                 (mk_inputs 10 10 10 false true false sample_env sample_env)
                 sample_start) as (H1 & H2 & _ & _ & _ & H6);
      [reflexivity | reflexivity | reflexivity | reflexivity | cbn; lia
      | vm_compute; reflexivity | ].
    split; [exact H1 |]. split; [exact H2 | exact H6].
Defined.

(** X13.  The first execution in a new browser session sets up the default
    game before anything else: unless "New Game" is pressed in it, it ends
    with 100 boxes, 10 grid columns, the rate of the sidebar, the bomb in
    one of the 100 boxes, a run id stamped from the clock, and at most one
    box opened. *)
Theorem first_execution_defaults (w : inputs) :
  same_game w ->
  exists s' p,
    script_run w None = Some (s', p) /\
    n s' = 100 /\ cols s' = 10 /\ payoff_per_box s' = payoff_val w /\
    1 <= bomb_idx s' <= 100 /\
    run_id s' = strftime_run_id (now (env_init w)) /\
    0 <= opened s' <= 1.
Proof.
  intros Hw.
  destruct (reset_game_total None DEFAULT_N (env_init w)) as (s0 & H0);
    [unfold DEFAULT_N; lia |].
  destruct (reset_game_some _ _ _ _ H0) as (Heq & Hb).
  assert (Hrun : exists p, script_run w None
                   = Some (stop (stop_clicked w)
                             (open_next (open_clicked w)
                                (payoff_input (payoff_val w) s0)), p)).
  { rewrite script_run_unfold. cbn [_ensure_state]. rewrite H0.
    rewrite (ensure_state_accept None (env_init w) s0); [| discriminate | exact H0].
    cbv zeta. red in Hw. rewrite Hw. cbn [button andb].
    destruct (button (stop_clicked w) _); eauto. }
  destruct Hrun as (p & Hrun). eexists. exists p. split; [exact Hrun |].
  destruct (stop_frame (stop_clicked w)
              (open_next (open_clicked w) (payoff_input (payoff_val w) s0)))
    as (-> & -> & -> & -> & -> & ->).
  destruct (open_next_frame (open_clicked w) (payoff_input (payoff_val w) s0))
    as (-> & -> & -> & -> & _ & _ & _ & ->).
  assert (Hopen : 0 <= opened (open_next (open_clicked w)
                                 (payoff_input (payoff_val w) s0)) <= 1).
  { destruct (payoff_input_frame (payoff_val w) s0) as (_ & _ & _ & Hot & _).
    assert (Ho : opened s0 = 0) by (rewrite Heq; reflexivity).
    unfold open_next.
    destruct (button (open_clicked w) _); cbn [opened set_opened]; lia. }
  destruct (payoff_input_frame (payoff_val w) s0)
    as (-> & -> & -> & _ & _ & _ & _ & ->).
  rewrite payoff_input_rate.
  assert (Hn0 : n s0 = 100) by (rewrite Heq; reflexivity).
  assert (Hc0 : cols s0 = 10) by (rewrite Heq; reflexivity).
  assert (Hid0 : run_id s0 = strftime_run_id (now (env_init w)))
    by (rewrite Heq; reflexivity).
  unfold DEFAULT_N in Hb. auto 10.
Qed.

Lemma first_execution_defaults_witness :
  exists s' p,
    script_run (mk_inputs 10 10 10 false false false sample_env sample_env) None
    = Some (s', p) /\
    n s' = 100 /\ cols s' = 10 /\ payoff_per_box s' = 10 /\
    1 <= bomb_idx s' <= 100 /\
    run_id s' = strftime_run_id (now sample_env) /\
    0 <= opened s' <= 1.
Proof.
  apply (first_execution_defaults
           (mk_inputs 10 10 10 false false false sample_env sample_env)).
  reflexivity.
Defined.

(** ** The bomb stays hidden along a whole session *)

(** X14.  Two sessions that differ at most in the bomb position, the
    outcome and the payoff, taken through the same series of executions,
    print the same pages for as long as the game is not revealed: nothing a
    participant does before stopping shows where the bomb is. *)
Theorem pages_hide_bomb (ws : list inputs) (s1 s2 : session_state)
    (tr1 tr2 : list (session_state * page)) :
  revealed s1 = false ->
  same_public s1 s2 ->
  script_trace ws (Some s1) = Some tr1 ->
  script_trace ws (Some s2) = Some tr2 ->
  Forall (fun sp => revealed (fst sp) = false) tr1 ->
  map snd tr1 = map snd tr2.
Proof.
  revert s1 s2 tr1 tr2.
  induction ws as [| w ws IH]; intros s1 s2 tr1 tr2 Hr Hp H1 H2 Hall.
  - cbn in H1, H2. injection H1 as <-. injection H2 as <-. reflexivity.
  - cbn [script_trace] in H1, H2.
    destruct (script_run w (Some s1)) as [[s1' p1] |] eqn:R1; [| discriminate].
    destruct (script_run w (Some s2)) as [[s2' p2] |] eqn:R2; [| discriminate].
    destruct (script_trace ws (Some s1')) as [t1 |] eqn:T1; [| discriminate].
    destruct (script_trace ws (Some s2')) as [t2 |] eqn:T2; [| discriminate].
    injection H1 as <-. injection H2 as <-.
    inversion Hall as [| ? ? Hhd Htl]; subst. cbn [fst] in Hhd.
    destruct (script_run_hides_bomb w s1 s2 s1' s2' p1 p2 Hr Hp R1 R2)
      as (Hp' & Hpage).
    cbn [map snd]. rewrite (Hpage Hhd).
    f_equal. exact (IH s1' s2' t1 t2 Hhd Hp' T1 T2 Htl).
Qed.

Lemma pages_hide_bomb_witness :
  exists tr1 tr2,
    script_trace (repeat (mk_inputs 10 10 10 false true false sample_env sample_env) 7)
                 (Some sample_start) = Some tr1 /\
    script_trace (repeat (mk_inputs 10 10 10 false true false sample_env sample_env) 7)
                 (Some (set_bomb_idx 2 sample_start)) = Some tr2 /\
    map snd tr1 = map snd tr2.
Proof.
  eexists. eexists. split; [vm_compute; reflexivity |].
  split; [vm_compute; reflexivity |].
  eapply (pages_hide_bomb
            (repeat (mk_inputs 10 10 10 false true false sample_env sample_env) 7)
            sample_start (set_bomb_idx 2 sample_start)).
  - reflexivity.
  - cbn. repeat split.
  - vm_compute. reflexivity.
  - vm_compute. reflexivity.
  - repeat constructor.
Defined.

(** ** After the reveal *)

(** X15.  Once a game has ended safe, a later execution without "New Game"
    keeps the payoff but prints the status line with the rate the sidebar
    holds now: the product shown in brackets is opened count times that
    rate, whether or not it equals the payoff printed next to it. *)
Theorem safe_status_line_follows_sidebar (w : inputs) (s s' : session_state)
    (p : page) :
  same_game w ->
  revealed s = true ->
  outcome s = Some "safe" ->
  script_run w (Some s) = Some (s', p) ->
  payoff s' = payoff s /\
  pg_status p
    = "✅ Safe! Bomb was in box **" ++ str (bomb_idx s) ++ "** → " ++
      "**Payoff: " ++ fmt_payoff (payoff s) ++ "** " ++
      "(" ++ str (opened s) ++ " × " ++ str (payoff_val w) ++ ")".
Proof.
  intros Hw Hr Hsafe H.
  destruct (payoff_input_frame (payoff_val w) s)
    as (_ & _ & Hb & Ho & Hrt & Hp & Hout & _).
  pose proof (payoff_input_rate (payoff_val w) s) as Hrate.
  red in Hw. rewrite script_run_unfold in H. cbn [_ensure_state] in H.
  destruct (widgets_accept s); [| discriminate]. cbv zeta in H.
  rewrite Hw in H. cbn [button andb] in H.
  set (t := payoff_input (payoff_val w) s) in *.
  assert (Hr1 : revealed t = true) by congruence.
  rewrite (open_next_revealed _ _ Hr1) in H.
  rewrite (stop_revealed _ _ Hr1) in H.
  rewrite (disabled_stop_revealed _ Hr1), button_disabled in H.
  injection H as <- <-. cbn [pg_status].
  split; [exact Hp |].
  unfold status_line. rewrite Hr1, Hout, Hsafe, Hb, Ho, Hp, Hrate.
  reflexivity.
Qed.

Lemma safe_status_line_follows_sidebar_witness :
  exists s' p,
    script_run (mk_inputs 50 10 10 false false false sample_env sample_env)
               (Some (mk_state 10 10 10 5 4 true (Some 40) (Some "safe")
                               "20240309-140507")) = Some (s', p) /\
    payoff s' = Some 40 /\
    pg_status p = "✅ Safe! Bomb was in box **5** → **Payoff: 40** (4 × 50)".
Proof.
  eexists. eexists. split; [vm_compute; reflexivity |].
  eapply (safe_status_line_follows_sidebar
            (mk_inputs 50 10 10 false false false sample_env sample_env)
            (mk_state 10 10 10 5 4 true (Some 40) (Some "safe")
                      "20240309-140507"));
    [reflexivity | reflexivity | reflexivity | vm_compute; reflexivity].
Defined.

(** ** Presses on the open button *)

Lemma str_inj (a b : Z) : str a = str b -> a = b.
Proof.
  unfold str. intros H.
  apply (f_equal NilZero.int_of_string) in H.
  assert (Hnn : forall z, Z.to_int z <> Decimal.Pos Decimal.Nil /\
                          Z.to_int z <> Decimal.Neg Decimal.Nil).
  { intros [| q | q]; cbn [Z.to_int]; split; try discriminate;
      intros E; injection E as E;
      exact (DecimalPos.Unsigned.to_uint_nonnil q E). }
  rewrite !NilZero.isi in H by apply Hnn.
  injection H as H. apply DecimalZ.to_int_inj. exact H.
Qed.

Lemma length_append (a b : string) :
  String.length (a ++ b) = (String.length a + String.length b)%nat.
Proof.
  induction a as [| c a IH]; [reflexivity |].
  cbn [append String.length]. rewrite IH. reflexivity.
Qed.

Lemma append_inj_l (p a b : string) : p ++ a = p ++ b -> a = b.
Proof.
  induction p as [| c p IH]; cbn [append]; intros H; [exact H |].
  injection H as H. apply IH, H.
Qed.

Lemma append_inj_r (a b t : string) : a ++ t = b ++ t -> a = b.
Proof.
  revert b. induction a as [| c a IH]; intros [| d b] H.
  - reflexivity.
  - apply (f_equal String.length) in H.
    cbn [append String.length] in H. rewrite length_append in H. lia.
  - apply (f_equal String.length) in H.
    cbn [append String.length] in H. rewrite length_append in H. lia.
  - cbn [append] in H. injection H as -> H. f_equal. apply IH, H.
Qed.

(** The label of the open button tells the opened count. *)
Lemma open_button_label_inj (s1 s2 : session_state) :
  open_button_label s1 = open_button_label s2 -> opened s1 = opened s2.
Proof.
  unfold open_button_label. intros H.
  apply append_inj_l, append_inj_r, str_inj in H. lia.
Qed.

Lemma open_button_label_opened (s1 s2 : session_state) :
  opened s1 = opened s2 -> open_button_label s1 = open_button_label s2.
Proof. unfold open_button_label. intros ->. reflexivity. Qed.

(** The open button on the page of an execution that pressed neither "New
    Game" nor a stop that fired was drawn before the open handler ran. *)
Lemma no_rerun_open_label (w : inputs) (s s' : session_state) (p : page) :
  same_game w ->
  stop_clicked w = false ->
  script_run w (Some s) = Some (s', p) ->
  pg_open_label p = open_button_label s.
Proof.
  intros Hw Hstop H. red in Hw. rewrite script_run_unfold in H.
  cbn [_ensure_state] in H.
  destruct (widgets_accept s); [| discriminate]. cbv zeta in H.
  rewrite Hw, Hstop in H. cbn [button andb] in H.
  injection H as _ <-. cbn [pg_open_label].
  apply open_button_label_opened.
  destruct (payoff_input_frame (payoff_val w) s) as (_ & _ & _ & Ho & _).
  exact Ho.
Qed.

(** X16.  After an execution in which "Open next box" opens a box and
    nothing else is pressed, the open button left on the page still carries
    the label of the box just opened, while the next execution draws the
    button under the label of the following box: a press on the button on
    that page is not delivered.  The execution that such a press starts
    opens nothing, and the page it prints carries the current label again,
    so that the press after it is delivered. *)
Theorem stale_open_button_drops_press (w : inputs) (s s' : session_state)
    (p : page) :
  same_game w ->
  open_clicked w = true ->
  stop_clicked w = false ->
  revealed s = false ->
  opened s < n s ->
  script_run w (Some s) = Some (s', p) ->
  open_press_delivered p s' = false /\
  (forall w2 s2 p2,
     same_game w2 ->
     stop_clicked w2 = false ->
     open_clicked w2 = open_press_delivered p s' ->
     script_run w2 (Some s') = Some (s2, p2) ->
     opened s2 = opened s' /\ open_press_delivered p2 s2 = true).
Proof.
  intros Hw Hopen Hstop Hr Hlt H.
  assert (Ho : opened s' = opened s + 1).
  { rewrite (script_run_same_game w s s' p Hw H).
    destruct (stop_frame (stop_clicked w)
                (open_next (open_clicked w) (payoff_input (payoff_val w) s)))
      as (_ & _ & _ & _ & -> & _).
    destruct (payoff_input_frame (payoff_val w) s)
      as (Hn & _ & _ & Hop & Hrv & _).
    rewrite Hopen, open_next_fires by congruence.
    cbn [opened set_opened]. lia. }
  assert (Hdrop : open_press_delivered p s' = false).
  { unfold open_press_delivered.
    rewrite (no_rerun_open_label w s s' p Hw Hstop H).
    apply String.eqb_neq. intros E.
    apply open_button_label_inj in E. lia. }
  split; [exact Hdrop |].
  intros w2 s2 p2 Hw2 Hstop2 Hopen2 H2. rewrite Hdrop in Hopen2.
  assert (Ho2 : opened s2 = opened s').
  { rewrite (script_run_same_game w2 s' s2 p2 Hw2 H2).
    destruct (stop_frame (stop_clicked w2)
                (open_next (open_clicked w2) (payoff_input (payoff_val w2) s')))
      as (_ & _ & _ & _ & -> & _).
    rewrite Hopen2. unfold open_next. rewrite button_unclicked.
    destruct (payoff_input_frame (payoff_val w2) s') as (_ & _ & _ & -> & _).
    reflexivity. }
  split; [exact Ho2 |].
  unfold open_press_delivered.
  rewrite (no_rerun_open_label w2 s' s2 p2 Hw2 Hstop2 H2).
  apply String.eqb_eq, open_button_label_opened. symmetry. exact Ho2.
Qed.

Lemma stale_open_button_drops_press_witness :
  exists s' p,
    script_run (mk_inputs 10 10 10 false true false sample_env sample_env)
               (Some sample_start) = Some (s', p) /\
    open_press_delivered p s' = false.
Proof.
  eexists. eexists. split; [vm_compute; reflexivity |].
  eapply (stale_open_button_drops_press
            (mk_inputs 10 10 10 false true false sample_env sample_env)
            sample_start);
    [reflexivity | reflexivity | reflexivity | reflexivity | cbn; lia
    | vm_compute; reflexivity].
Defined.
